(** * OneOnOne: the AI daemon and the Whisper transcription script

    A shallow embedding of [Python/ai_daemon.py] and
    [Python/whisper_transcribe.py].  Python values that travel through
    [json.loads] / [json.dumps] are a small inductive type, exceptions are
    an error result carrying [str(e)], the daemon object is a record that
    is threaded through every handler, the generator returned by
    [AIDaemon.generate] is a resumable coroutine state, and everything the
    process does to the outside (lines printed, calls into the inference
    library) is collected in an event trace. *)

From Stdlib Require Import String Ascii List ZArith QArith Bool Lia.
Import ListNotations.
Set Warnings "-register-all".
Close Scope Q_scope.
Local Open Scope string_scope.
Local Open Scope list_scope.

(** ** Python values and exceptions *)

Module Py.

(** The values [json.loads] produces and [json.dumps] accepts.  A float is
    kept as the rational it denotes; the code never computes with one. *)
Inductive value : Type :=
| VNone
| VBool (b : bool)
| VInt (n : Z)
| VFloat (q : Q)
| VStr (s : string)
| VList (items : list value)
| VDict (entries : list (string * value)).

(** A computation that returns or raises an [Exception]; the payload of
    [Raise] is [str(e)]. *)
Inductive result (A : Type) : Type :=
| Ok (a : A)
| Raise (e : string).
Arguments Ok {A} a.
Arguments Raise {A} e.

Definition bind {A B : Type} (r : result A) (k : A -> result B) : result B :=
  match r with
  | Ok a => k a
  | Raise e => Raise e
  end.

Notation "x <- r ;; k" := (bind r (fun x => k))
  (at level 61, r at next level, right associativity).

Definition type_name (v : value) : string :=
  match v with
  | VNone => "NoneType"
  | VBool _ => "bool"
  | VInt _ => "int"
  | VFloat _ => "float"
  | VStr _ => "str"
  | VList _ => "list"
  | VDict _ => "dict"
  end.

Definition no_attribute (v : value) (attr : string) : string :=
  "'" ++ type_name v ++ "' object has no attribute '" ++ attr ++ "'".

(** Lookup in a dict kept as an association list. *)
Fixpoint lookup (k : string) (d : list (string * value)) : option value :=
  match d with
  | [] => None
  | (k', v) :: rest => if String.eqb k k' then Some v else lookup k rest
  end.

(** [d.get(k, default)]: an [AttributeError] on anything but a dict. *)
Definition get (d : value) (k : string) (default : value) : result value :=
  match d with
  | VDict entries =>
      match lookup k entries with
      | Some v => Ok v
      | None => Ok default
      end
  | _ => Raise (no_attribute d "get")
  end.

(** [d[k]] on a dict: a [KeyError], whose [str] is the quoted key. *)
Definition getitem (entries : list (string * value)) (k : string) : result value :=
  match lookup k entries with
  | Some v => Ok v
  | None => Raise ("'" ++ k ++ "'")
  end.

(** [v == s] for a string literal [s]. *)
Definition eq_str (v : value) (s : string) : bool :=
  match v with
  | VStr s' => String.eqb s' s
  | _ => false
  end.

(** Whitespace as [str.strip()] sees it, on the ASCII range. *)
Definition is_space (c : ascii) : bool :=
  let n := nat_of_ascii c in
  ((9 <=? n) && (n <=? 13) || (28 <=? n) && (n <=? 32))%nat.

Fixpoint lstrip (s : string) : string :=
  match s with
  | EmptyString => EmptyString
  | String c rest => if is_space c then lstrip rest else s
  end.

Fixpoint rstrip (s : string) : string :=
  match s with
  | EmptyString => EmptyString
  | String c rest =>
      match rstrip rest with
      | EmptyString => if is_space c then EmptyString else String c EmptyString
      | kept => String c kept
      end
  end.

Definition strip (s : string) : string := rstrip (lstrip s).

(** The entry of a dict under a key, for reading a response. *)
Definition field (v : value) (k : string) : option value :=
  match v with
  | VDict entries => lookup k entries
  | _ => None
  end.

(** [v.strip()]: an [AttributeError] on anything but a str. *)
Definition strip_value (v : value) : result value :=
  match v with
  | VStr s => Ok (VStr (strip s))
  | _ => Raise (no_attribute v "strip")
  end.

End Py.

Import Py.

(** ** The daemon: [Python/ai_daemon.py] *)

Module AIDaemon.

(** A [pathlib.Path]; on POSIX two paths are equal when their string forms
    are. *)
Record Path : Type := mkPath { path_str : string }.

Definition Path_eqb (p q : Path) : bool := String.eqb (path_str p) (path_str q).

(** What the interpreter and the operating system decide for the daemon. *)
Record Host : Type := mkHost {
  (** [json.loads]; a failure is a [JSONDecodeError] *)
  json_loads : string -> result value;
  (** [Path(x).expanduser()] *)
  Path_expanduser : value -> result Path;
  (** [p.exists()] *)
  Path_exists : Path -> result bool;
  (** [p.name] *)
  Path_name : Path -> string;
  (** [str(x)] for numbers and containers *)
  py_repr : value -> string
}.

(** What the provider's token iterator does when it is advanced: it ends,
    it hands over one more token, or it raises. *)
Inductive TokenStream : Type :=
| TSEnd
| TSToken (token : string) (rest : TokenStream)
| TSRaise (e : string).

(** [mlx_lm]: [load(path)], which returns the pair of a model and a
    tokenizer handle or raises, and [generate(model, tokenizer, **kwargs)],
    which is handed [self.tokenizer] as it is. *)
Record Provider (Model Tokenizer : Type) : Type := mkProvider {
  load : string -> result (Model * Tokenizer);
  generate_mlx : Model -> option Tokenizer -> list (string * value) -> TokenStream
}.
Arguments load {Model Tokenizer} _ _.
Arguments generate_mlx {Model Tokenizer} _ _ _ _.

Section Daemon.

Context {Model Tokenizer : Type}.
Variable host : Host.
Variable mlx : Provider Model Tokenizer.

(** The attributes [__init__] sets. *)
Record State : Type := mkState {
  model : option Model;
  tokenizer : option Tokenizer;
  model_path : option Path;
  running : bool
}.

Definition init : State :=
  {| model := None; tokenizer := None; model_path := None; running := true |}.

Definition set_running (b : bool) (self : State) : State :=
  {| model := model self; tokenizer := tokenizer self;
     model_path := model_path self; running := b |}.

(** What the process does to the outside, in order. *)
Inductive Event : Type :=
| Print (line : value)
| CallLoad (path : string)
| CallGenerate (m : Model) (t : option Tokenizer) (kwargs : list (string * value)).

Definition is_not_none {A : Type} (o : option A) : bool :=
  match o with Some _ => true | None => false end.

(** [self.model_path == model_path] *)
Definition model_path_is (self : State) (p : Path) : bool :=
  match model_path self with
  | Some q => Path_eqb q p
  | None => false
  end.

Definition path_error (p : Path) : value :=
  VDict [("success", VBool false);
         ("error", VStr ("Model path does not exist: " ++ path_str p));
         ("type", VStr "path_error")].

Definition load_error (e : string) : value :=
  VDict [("success", VBool false);
         ("error", VStr e);
         ("type", VStr "load_error")].

Definition load_result (p : Path) (cached : bool) (message : string) : value :=
  VDict [("success", VBool true);
         ("path", VStr (path_str p));
         ("name", VStr (Path_name host p));
         ("cached", VBool cached);
         ("message", VStr message)].

(** [AIDaemon.load_model]: the daemon afterwards, the calls made to the
    provider, and the dict returned. *)
Definition load_model (self : State) (arg : value) : State * list Event * value :=
  match Path_expanduser host arg with
  | Raise e => (self, [], load_error e)
  | Ok p =>
      match Path_exists host p with
      | Raise e => (self, [], load_error e)
      | Ok false => (self, [], path_error p)
      | Ok true =>
          if is_not_none (model self) && model_path_is self p then
            (self, [], load_result p true "Model already loaded in daemon")
          else
            match load mlx (path_str p) with
            | Raise e => (self, [CallLoad (path_str p)], load_error e)
            | Ok (m, t) =>
                ({| model := Some m; tokenizer := Some t;
                    model_path := Some p; running := running self |},
                 [CallLoad (path_str p)],
                 load_result p false "Model loaded successfully")
            end
      end
  end.

(** *** [AIDaemon.generate], a generator *)

Definition token_response (token : string) : value :=
  VDict [("type", VStr "token"); ("token", VStr token)].

Definition complete_response : value :=
  VDict [("type", VStr "complete"); ("message", VStr "Generation finished")].

Definition error_response (e : string) : value :=
  VDict [("type", VStr "error"); ("error", VStr e)].

(** The arguments a call of [generate] binds. *)
Record GenerateArgs : Type := mkArgs {
  prompt : value;
  max_tokens : value;
  temperature : value;
  top_p : value;
  repetition_penalty : value
}.

(** Where the generator object is suspended. *)
Inductive Generator : Type :=
| GCreated (args : GenerateArgs)   (* called, body not yet entered *)
| GAtNoModel                       (* at the yield of "No model loaded" *)
| GAtToken (rest : TokenStream)    (* at [yield token], inside the for loop *)
| GAtComplete                      (* at the yield of "complete" *)
| GAtError                         (* at the yield in the except clause *)
| GFinished.

(** Calling [AIDaemon.generate] binds the arguments and returns the
    generator; none of the body has run yet. *)
Definition generate (prompt max_tokens temperature top_p repetition_penalty : value)
  : Generator :=
  GCreated {| prompt := prompt; max_tokens := max_tokens;
              temperature := temperature; top_p := top_p;
              repetition_penalty := repetition_penalty |}.

(** The keyword arguments of the one call into [mlx_lm.generate]. *)
Definition generate_kwargs (args : GenerateArgs) : list (string * value) :=
  [("prompt", prompt args); ("max_tokens", max_tokens args);
   ("verbose", VBool false)].

(** One turn of [for token in response], up to the next yield: the iterator
    is advanced first, the run flag is read after that. *)
Definition for_token (self : State) (response : TokenStream)
  : option value * Generator :=
  match response with
  | TSEnd => (Some complete_response, GAtComplete)
  | TSToken token rest =>
      if negb (running self) then (Some complete_response, GAtComplete)
      else (Some (token_response token), GAtToken rest)
  | TSRaise e => (Some (error_response e), GAtError)
  end.

(** [next(g)]: the body runs from where it is suspended to its next yield
    ([Some]) or to its end ([None], StopIteration), reading the daemon as it
    is now. *)
Definition gen_next (self : State) (g : Generator)
  : option value * Generator * list Event :=
  match g with
  | GCreated args =>
      match model self with
      | None => (Some (error_response "No model loaded"), GAtNoModel, [])
      | Some m =>
          let kwargs := generate_kwargs args in
          let '(r, g') := for_token self (generate_mlx mlx m (tokenizer self) kwargs) in
          (r, g', [CallGenerate m (tokenizer self) kwargs])
      end
  | GAtToken rest => let '(r, g') := for_token self rest in (r, g', [])
  | GAtNoModel | GAtComplete | GAtError | GFinished => (None, GFinished, [])
  end.

(** [for response in g: print(json.dumps(response))].  Whatever else runs
    while the generator is suspended (a signal handler, another thread) is
    [env k], applied to the daemon after the [k]-th response is printed. *)
Fixpoint consume (fuel : nat) (env : nat -> State -> State) (k : nat)
  (self : State) (g : Generator) : State * list Event :=
  match fuel with
  | O => (self, [])
  | S fuel' =>
      match gen_next self g with
      | (None, _, calls) => (self, calls)
      | (Some response, g', calls) =>
          let '(self', events) := consume fuel' env (S k) (env k self) g' in
          (self', calls ++ Print response :: events)
      end
  end.

Fixpoint stream_length (response : TokenStream) : nat :=
  match response with
  | TSToken _ rest => S (stream_length rest)
  | TSEnd | TSRaise _ => O
  end.

(** Resumptions that are enough to exhaust [g]. *)
Definition resumptions (self : State) (g : Generator) : nat :=
  match g with
  | GCreated args =>
      match model self with
      | None => 2
      | Some m => 2 + stream_length (generate_mlx mlx m (tokenizer self) (generate_kwargs args))
      end
  | GAtToken rest => 2 + stream_length rest
  | _ => 1
  end.

Definition for_response (env : nat -> State -> State) (self : State)
  (g : Generator) : State * list Event :=
  consume (resumptions self g) env 0 self g.

(** Nothing touches the daemon while the generator is suspended. *)
Definition undisturbed : nat -> State -> State := fun _ self => self.

(** *** [AIDaemon.run] and the signal handler *)

Definition ready_response : value :=
  VDict [("type", VStr "ready"); ("message", VStr "AI Daemon started and ready")].

Definition shutdown_response : value :=
  VDict [("type", VStr "shutdown"); ("message", VStr "Daemon shutting down")].

Definition status_response (self : State) : value :=
  VDict [("type", VStr "status");
         ("running", VBool true);
         ("model_loaded", VBool (is_not_none (model self)));
         ("model_path", match model_path self with
                        | Some p => VStr (path_str p)
                        | None => VNone
                        end)].

(** [str(x)] as an f-string applies it. *)
Definition py_str (v : value) : string :=
  match v with
  | VNone => "None"
  | VBool true => "True"
  | VBool false => "False"
  | VStr s => s
  | _ => py_repr host v
  end.

(** [d.get(k, default)] on a dict. *)
Definition get_default (entries : list (string * value)) (k : string)
  (default : value) : value :=
  match lookup k entries with
  | Some v => v
  | None => default
  end.

Inductive Control : Type := Continue | Break.

(** How the body of the [try] in the loop ends. *)
Inductive Tried (A : Type) : Type :=
| Returned (a : A)
| JSONDecodeError (e : string)
| OtherException (e : string).
Arguments Returned {A} a.
Arguments JSONDecodeError {A} e.
Arguments OtherException {A} e.

(** The body of the [try], from [json.loads] on. *)
Definition dispatch (self : State) (line : string)
  : Tried (State * list Event * Control) :=
  match json_loads host (strip line) with
  | Raise e => JSONDecodeError e
  | Ok (VDict command) =>
      let command_type := get_default command "type" VNone in
      if eq_str command_type "load_model" then
        match getitem command "model_path" with
        | Raise e => OtherException e
        | Ok arg =>
            let '(self', calls, result) := load_model self arg in
            Returned (self', calls ++ [Print result], Continue)
        end
      else if eq_str command_type "generate" then
        match getitem command "prompt" with
        | Raise e => OtherException e
        | Ok p =>
            let '(self', events) :=
              for_response undisturbed self
                (generate p
                   (get_default command "max_tokens" (VInt 1024))
                   (get_default command "temperature" (VFloat (7 # 10)))
                   (get_default command "top_p" (VFloat (9 # 10)))
                   (get_default command "repetition_penalty" (VFloat (1 # 1)))) in
            Returned (self', events, Continue)
        end
      else if eq_str command_type "status" then
        Returned (self, [Print (status_response self)], Continue)
      else if eq_str command_type "shutdown" then
        Returned (set_running false self, [Print shutdown_response], Break)
      else
        Returned (self,
                  [Print (error_response ("Unknown command type: " ++ py_str command_type))],
                  Continue)
  | Ok command => OtherException (no_attribute command "get")
  end.

(** One pass of the loop body once a line has been read, with the two
    except clauses. *)
Definition process_line (self : State) (line : string)
  : State * list Event * Control :=
  match dispatch self line with
  | Returned r => r
  | JSONDecodeError e =>
      (self, [Print (error_response ("Invalid JSON: " ++ e))], Continue)
  | OtherException e =>
      (self, [Print (error_response ("Unexpected error: " ++ e))], Continue)
  end.

(** [while self.running: ...]; [stdin] holds the lines [readline] will
    return, and an exhausted [stdin] reads as the empty string. *)
Fixpoint loop (self : State) (stdin : list string) : State * list Event :=
  if negb (running self) then (self, [])
  else
    match stdin with
    | [] => (self, [])
    | line :: rest =>
        if String.eqb line "" then (self, [])
        else
          match process_line self line with
          | (self', events, Break) => (self', events)
          | (self', events, Continue) =>
              let '(self'', events') := loop self' rest in
              (self'', events ++ events')
          end
    end.

Definition run (self : State) (stdin : list string) : State * list Event :=
  let '(self', events) := loop self stdin in
  (self', Print ready_response :: events).

(** [AIDaemon._handle_shutdown]: the daemon, the line printed, and the
    status [sys.exit] leaves with. *)
Definition _handle_shutdown (self : State) : State * list Event * Z :=
  (set_running false self, [Print shutdown_response], 0%Z).

(** The printing loop over a generator when SIGINT or SIGTERM is delivered
    once [n] responses are out: the handler runs in the main thread, and the
    [SystemExit] it raises passes every [except Exception] on its way up.
    The last component is the exit status, if the process ended. *)
Fixpoint consume_until_signal (fuel n : nat) (self : State) (g : Generator)
  {struct n} : State * list Event * option Z :=
  match n with
  | O =>
      let '(self', events, status) := _handle_shutdown self in
      (self', events, Some status)
  | S n' =>
      match fuel with
      | O => (self, [], None)
      | S fuel' =>
          match gen_next self g with
          | (None, _, calls) => (self, calls, None)
          | (Some response, g', calls) =>
              let '(self', events, status) :=
                consume_until_signal fuel' n' self g' in
              (self', calls ++ Print response :: events, status)
          end
      end
  end.

(** *** Vocabulary of the statements *)

(** A provider stream that hands over [tokens] and then goes on as [tail]. *)
Definition tokens_then (tokens : list string) (tail : TokenStream) : TokenStream :=
  fold_right TSToken tail tokens.

(** The daemon as the generator finds it [n] resumptions after the one that
    is numbered [k] and finds it as [self]. *)
Fixpoint observed (env : nat -> State -> State) (k : nat) (self : State)
  (n : nat) : State :=
  match n with
  | O => self
  | S n' => observed env (S k) (env k self) n'
  end.

(** The lines of a trace. *)
Fixpoint printed (events : list Event) : list value :=
  match events with
  | [] => []
  | Print line :: rest => line :: printed rest
  | _ :: rest => printed rest
  end.

(** The calls of a trace into the provider's [load]. *)
Fixpoint load_calls (events : list Event) : list string :=
  match events with
  | [] => []
  | CallLoad path :: rest => path :: load_calls rest
  | _ :: rest => load_calls rest
  end.

(** [line] decodes to the dict [command], whose "type" is [type]. *)
Definition is_command (line : string) (command : list (string * value))
  (type : string) : Prop :=
  json_loads host (strip line) = Ok (VDict command) /\
  lookup "type" command = Some (VStr type).

(** Model and tokenizer come and go together, and the path with the model. *)
Definition invariant (self : State) : Prop :=
  is_not_none (model self) = is_not_none (tokenizer self) /\
  is_not_none (model_path self) = is_not_none (model self).

(** The tokens a provider stream hands over before it ends or raises. *)
Fixpoint stream_tokens (response : TokenStream) : list string :=
  match response with
  | TSToken token rest => token :: stream_tokens rest
  | TSEnd | TSRaise _ => []
  end.

(** The response that closes an uncancelled stream. *)
Fixpoint stream_terminal (response : TokenStream) : value :=
  match response with
  | TSToken _ rest => stream_terminal rest
  | TSEnd => complete_response
  | TSRaise e => error_response e
  end.

(** [line] decodes to a dict whose "type" is the string [type]. *)
Definition has_type (line : string) (type : string) : bool :=
  match json_loads host (strip line) with
  | Ok (VDict command) => eq_str (get_default command "type" VNone) type
  | _ => false
  end.

(** What a generator can yield. *)
Definition streamed (r : value) : Prop :=
  (exists t, r = token_response t) \/ r = complete_response \/
  (exists e, r = error_response e).

(** The same daemon as far as the loaded model goes. *)
Definition same_model (self self' : State) : Prop :=
  model self' = model self /\
  tokenizer self' = tokenizer self /\
  model_path self' = model_path self.

End Daemon.

Arguments State : clear implicits.
Arguments Event : clear implicits.
Arguments init : clear implicits.

(** *** A small installation to run the daemon on *)

Module Demo.

Definition dq : string := String (ascii_of_nat 34) EmptyString.

Definition quoted (s : string) : string := dq ++ s ++ dq.

(** A one-line JSON object with string members. *)
Fixpoint members (entries : list (string * string)) : string :=
  match entries with
  | [] => ""
  | [(k, v)] => quoted k ++ ":" ++ quoted v
  | (k, v) :: rest => quoted k ++ ":" ++ quoted v ++ "," ++ members rest
  end.

Definition object_line (entries : list (string * string)) : string :=
  "{" ++ members entries ++ "}" ++ String (ascii_of_nat 10) EmptyString.

Definition llama : string := "/models/llama".

Definition line_load : string :=
  object_line [("type", "load_model"); ("model_path", llama)].
Definition line_load_missing : string :=
  object_line [("type", "load_model"); ("model_path", "/nonexistent")].
Definition line_load_broken : string :=
  object_line [("type", "load_model"); ("model_path", "/models/broken")].
Definition line_generate : string :=
  object_line [("type", "generate"); ("prompt", "hi")].
Definition line_status : string := object_line [("type", "status")].
Definition line_shutdown : string := object_line [("type", "shutdown")].
Definition line_untyped : string := object_line [("prompt", "hi")].
(** a generate command that sets the three sampling parameters *)
Definition line_sampled : string :=
  "{" ++ members [("type", "generate"); ("prompt", "hi")] ++ ","
      ++ quoted "temperature" ++ ":0.1,"
      ++ quoted "top_p" ++ ":0.5,"
      ++ quoted "repetition_penalty" ++ ":1.3}"
      ++ String (ascii_of_nat 10) EmptyString.

Definition as_dict (entries : list (string * string)) : value :=
  VDict (map (fun kv => (fst kv, VStr (snd kv))) entries).

(** The decoder on the lines above and nothing else. *)
Definition decode_table : list (string * value) :=
  [(strip line_load, as_dict [("type", "load_model"); ("model_path", llama)]);
   (strip line_load_missing,
    as_dict [("type", "load_model"); ("model_path", "/nonexistent")]);
   (strip line_load_broken,
    as_dict [("type", "load_model"); ("model_path", "/models/broken")]);
   (strip line_generate, as_dict [("type", "generate"); ("prompt", "hi")]);
   (strip line_status, as_dict [("type", "status")]);
   (strip line_shutdown, as_dict [("type", "shutdown")]);
   (strip line_untyped, as_dict [("prompt", "hi")]);
   (strip line_sampled,
    VDict [("type", VStr "generate"); ("prompt", VStr "hi");
           ("temperature", VFloat (1 # 10)); ("top_p", VFloat (5 # 10));
           ("repetition_penalty", VFloat (13 # 10))])].

Fixpoint has_slash (s : string) : bool :=
  match s with
  | EmptyString => false
  | String c rest => if Ascii.eqb c "/" then true else has_slash rest
  end.

Fixpoint basename (s : string) : string :=
  match s with
  | EmptyString => EmptyString
  | String c rest =>
      if has_slash rest then basename rest
      else if Ascii.eqb c "/" then rest else s
  end.

Definition host : Host :=
  {| json_loads := fun s =>
       match lookup s decode_table with
       | Some v => Ok v
       | None => Raise "Expecting value: line 1 column 1 (char 0)"
       end;
     Path_expanduser := fun v =>
       match v with
       | VStr s => Ok (mkPath s)
       | _ => Raise ("expected str, bytes or os.PathLike object, not " ++ type_name v)%string
       end;
     Path_exists := fun p =>
       Ok (String.eqb (path_str p) llama || String.eqb (path_str p) "/models/broken");
     Path_name := fun p => basename (path_str p);
     py_repr := fun v => ("<" ++ type_name v ++ ">")%string |}.

(** A provider whose handles are names and whose model says "Hello!". *)
Definition mlx : Provider string string :=
  {| load := fun path =>
       if String.eqb path llama
       then Ok (("model:" ++ path)%string, ("tokenizer:" ++ path)%string)
       else Raise "No safetensors found";
     generate_mlx := fun _ _ _ => tokens_then ["Hel"; "lo"; "!"] TSEnd |}.

Definition loaded : State string string :=
  {| model := Some ("model:" ++ llama)%string;
     tokenizer := Some ("tokenizer:" ++ llama)%string;
     model_path := Some (mkPath llama);
     running := true |}.

Definition args : GenerateArgs :=
  {| prompt := VStr "hi"; max_tokens := VInt 1024;
     temperature := VFloat (7 # 10); top_p := VFloat (9 # 10);
     repetition_penalty := VFloat (1 # 1) |}.


(** A provider that gives out after its first token. *)
Definition mlx_failing : Provider string string :=
  {| load := load mlx;
     generate_mlx := fun _ _ _ => tokens_then ["Hel"] (TSRaise "out of memory") |}.

(** A second model, and a provider that loads either. *)
Definition mistral : string := "/models/mistral".

Definition mlx_two : Provider string string :=
  {| load := fun path =>
       if String.eqb path llama || String.eqb path mistral
       then Ok (("model:" ++ path)%string, ("tokenizer:" ++ path)%string)
       else Raise "No safetensors found";
     generate_mlx := generate_mlx mlx |}.

Definition line_load_mistral : string :=
  object_line [("type", "load_model"); ("model_path", mistral)].
Definition line_load_no_path : string := object_line [("type", "load_model")].
Definition line_generate_no_prompt : string := object_line [("type", "generate")].
Definition line_array : string := "[1, 2]" ++ String (ascii_of_nat 10) EmptyString.
Definition line_garbage : string := "{oops" ++ String (ascii_of_nat 10) EmptyString.

(** The host above with more lines decoded and the second model on disk. *)
Definition host_wide : Host :=
  {| json_loads := fun s =>
       match lookup s
               [(strip line_load_mistral,
                 as_dict [("type", "load_model"); ("model_path", mistral)]);
                (strip line_load_no_path, as_dict [("type", "load_model")]);
                (strip line_generate_no_prompt, as_dict [("type", "generate")]);
                (strip line_array, VList [VInt 1; VInt 2])]
       with
       | Some v => Ok v
       | None => json_loads host s
       end;
     Path_expanduser := Path_expanduser host;
     Path_exists := fun p =>
       match Path_exists host p with
       | Ok found => Ok (found || String.eqb (path_str p) mistral)
       | Raise e => Raise e
       end;
     Path_name := Path_name host;
     py_repr := py_repr host |}.

End Demo.

End AIDaemon.

(** ** The transcription script: [Python/whisper_transcribe.py] *)

Module WhisperTranscribe.

(** How a call into [mlx_whisper] ends; its [ImportError] is told apart
    because the fallback's except clause catches that class only. *)
Inductive Called (A : Type) : Type :=
| Return (a : A)
| RaiseImportError
| RaiseOther (e : string).
Arguments Return {A} a.
Arguments RaiseImportError {A}.
Arguments RaiseOther {A} e.

(** A loaded Whisper model: [model.transcribe(audio_path, **kwargs)]. *)
Record WhisperModel : Type := mkModel {
  transcribe : string -> list (string * value) -> result value
}.

(** What the script finds around it: its arguments, the file system, the
    environment variable, and which of the two packages import. *)
Record Env : Type := mkEnv {
  argv : list string;
  os_path_exists : string -> bool;
  WHISPER_MODEL : option string;
  (** [import whisper]: [None] is an [ImportError]; [Some] is
      [whisper.load_model] *)
  import_whisper : option (string -> result WhisperModel);
  (** [from mlx_whisper import transcribe] *)
  import_mlx_whisper : option (string -> Called value)
}.

Definition error_result (e : string) : value :=
  VDict [("error", VStr e);
         ("text", VStr "");
         ("segments", VList []);
         ("language", VStr "en")].

(** The items a for loop draws from a value. *)
Fixpoint characters (s : string) : list value :=
  match s with
  | EmptyString => []
  | String c rest => VStr (String c EmptyString) :: characters rest
  end.

Definition iterate (v : value) : result (list value) :=
  match v with
  | VList items => Ok items
  | VDict entries => Ok (map (fun kv => VStr (fst kv)) entries)
  | VStr s => Ok (characters s)
  | _ => Raise ("'" ++ type_name v ++ "' object is not iterable")
  end.

Definition format_segment (segment : value) : result value :=
  text <- Py.get segment "text" (VStr "") ;;
  text' <- strip_value text ;;
  start <- Py.get segment "start" (VInt 0) ;;
  end_ <- Py.get segment "end" (VInt 0) ;;
  confidence <- Py.get segment "no_speech_prob" (VInt 0) ;;
  Ok (VDict [("text", text'); ("start", start); ("end", end_);
             ("confidence", confidence)]).

Fixpoint format_segments (items : list value) : result (list value) :=
  match items with
  | [] => Ok []
  | segment :: rest =>
      formatted <- format_segment segment ;;
      more <- format_segments rest ;;
      Ok (formatted :: more)
  end.

(** The body of the last [try] of [transcribe_audio]. *)
Definition transcribe_with (m : WhisperModel) (audio_path : string) : result value :=
  r <- transcribe m audio_path
         [("language", VNone); ("task", VStr "transcribe"); ("verbose", VBool false)] ;;
  raw <- Py.get r "segments" (VList []) ;;
  items <- iterate raw ;;
  segments <- format_segments items ;;
  text <- Py.get r "text" (VStr "") ;;
  text' <- strip_value text ;;
  language <- Py.get r "language" (VStr "en") ;;
  Ok (VDict [("text", text'); ("segments", VList segments); ("language", language)]).

(** [transcribe_audio]: [Ok] is the dict it returns, [Raise] an exception
    that leaves it uncaught. *)
Definition transcribe_audio (env : Env) (audio_path : string) : result value :=
  match import_whisper env with
  | None =>
      match import_mlx_whisper env with
      | None =>
          Ok (error_result "Whisper not installed. Install with: pip install openai-whisper or pip install mlx-whisper")
      | Some mlx_transcribe =>
          match mlx_transcribe audio_path with
          | RaiseImportError =>
              Ok (error_result "Whisper not installed. Install with: pip install openai-whisper or pip install mlx-whisper")
          | RaiseOther e => Raise e
          | Return r =>
              text <- Py.get r "text" (VStr "") ;;
              segments <- Py.get r "segments" (VList []) ;;
              language <- Py.get r "language" (VStr "en") ;;
              Ok (VDict [("text", text); ("segments", segments); ("language", language)])
          end
      end
  | Some whisper_load_model =>
      let model_name :=
        match WHISPER_MODEL env with Some name => name | None => "base" end in
      match whisper_load_model model_name with
      | Raise e => Ok (error_result ("Failed to load Whisper model: " ++ e))
      | Ok m =>
          match transcribe_with m audio_path with
          | Raise e => Ok (error_result ("Transcription failed: " ++ e))
          | Ok r => Ok r
          end
      end
  end.

(** What a run of the script leaves behind: the objects printed on
    standard output, the exit status, and the exception that ended it,
    if one did. *)
Record Outcome : Type := mkOutcome {
  stdout : list value;
  exit_status : Z;
  uncaught : option string
}.

Definition main (env : Env) : Outcome :=
  match argv env with
  | _ :: audio_path :: _ =>
      if negb (os_path_exists env audio_path) then
        {| stdout := [error_result ("File not found: " ++ audio_path)];
           exit_status := 1; uncaught := None |}
      else
        match transcribe_audio env audio_path with
        | Ok r => {| stdout := [r]; exit_status := 0; uncaught := None |}
        | Raise e => {| stdout := []; exit_status := 1; uncaught := Some e |}
        end
  | _ =>
      {| stdout := [error_result "Usage: whisper_transcribe.py <audio_file>"];
         exit_status := 1; uncaught := None |}
  end.

(** *** Vocabulary of the statements *)

Definition or_zero (found : option value) : value :=
  match found with
  | Some v => v
  | None => VInt 0
  end.

(** [segment] is what the loop of [transcribe_audio] appends for [item]: the
    item is a dict whose "text", if it has one, is a string. *)
Definition formatted (item segment : value) : Prop :=
  exists (entries : list (string * value)) (text : string),
    item = VDict entries /\
    (lookup "text" entries = Some (VStr text) \/
     lookup "text" entries = None /\ text = "") /\
    segment = VDict [("text", VStr (strip text));
                     ("start", or_zero (lookup "start" entries));
                     ("end", or_zero (lookup "end" entries));
                     ("confidence", or_zero (lookup "no_speech_prob" entries))].

(** *** Three machines to run the script on *)

Module Demo.

(** An audio file is there, neither package is installed. *)
Definition nothing_installed : Env :=
  {| argv := ["whisper_transcribe.py"; "meeting.wav"];
     os_path_exists := fun path => String.eqb path "meeting.wav";
     WHISPER_MODEL := None;
     import_whisper := None;
     import_mlx_whisper := None |}.

(** Whisper is installed and its model fails on the file. *)
Definition failing_model : Env :=
  {| argv := ["whisper_transcribe.py"; "meeting.wav"];
     os_path_exists := fun path => String.eqb path "meeting.wav";
     WHISPER_MODEL := None;
     import_whisper :=
       Some (fun _ => Ok {| transcribe := fun _ _ => Raise "Invalid data found" |});
     import_mlx_whisper := None |}.

(** Only mlx-whisper is installed and its [transcribe] fails on the file. *)
Definition failing_fallback : Env :=
  {| argv := ["whisper_transcribe.py"; "meeting.wav"];
     os_path_exists := fun path => String.eqb path "meeting.wav";
     WHISPER_MODEL := None;
     import_whisper := None;
     import_mlx_whisper := Some (fun _ => RaiseOther "Invalid data found") |}.

(** The script is started without an argument. *)
Definition no_argument : Env :=
  {| argv := ["whisper_transcribe.py"];
     os_path_exists := fun _ => true;
     WHISPER_MODEL := None;
     import_whisper := None;
     import_mlx_whisper := None |}.

(** The file named is not there. *)
Definition missing_file : Env :=
  {| argv := ["whisper_transcribe.py"; "meeting.wav"];
     os_path_exists := fun _ => false;
     WHISPER_MODEL := None;
     import_whisper := None;
     import_mlx_whisper := None |}.

(** What a working model hears in the file: two segments. *)
Definition heard : value :=
  VDict [("text", VStr " Hello there. Welcome. ");
         ("segments",
          VList [VDict [("id", VInt 0); ("text", VStr " Hello there.");
                        ("start", VFloat (0 # 1)); ("end", VFloat (3 # 2));
                        ("no_speech_prob", VFloat (1 # 50))];
                 VDict [("id", VInt 1); ("text", VStr " Welcome. ");
                        ("start", VFloat (3 # 2)); ("end", VFloat (5 # 2))]]);
         ("language", VStr "en")].

Definition working_model : string -> result WhisperModel :=
  fun _ => Ok {| transcribe := fun _ _ => Ok heard |}.

(** Whisper is installed and works. *)
Definition installed : Env :=
  {| argv := ["whisper_transcribe.py"; "meeting.wav"];
     os_path_exists := fun path => String.eqb path "meeting.wav";
     WHISPER_MODEL := None;
     import_whisper := Some working_model;
     import_mlx_whisper := None |}.

End Demo.

End WhisperTranscribe.

(** * Properties of the daemon *)

Section DaemonFacts.

Import AIDaemon.

Context {Model Tokenizer : Type}.
Variable host : Host.
Variable mlx : Provider Model Tokenizer.

Local Abbreviation State := (AIDaemon.State Model Tokenizer).
Local Abbreviation Event := (AIDaemon.Event Model Tokenizer).
Local Abbreviation Env := (nat -> State -> State).

(** ** Draining the generator *)

Lemma for_token_yields (self : State) (response : TokenStream) :
  exists v g, for_token self response = (Some v, g).
Proof.
  destruct response as [|token rest|e]; cbn.
  - eauto.
  - destruct (running self); cbn; eauto.
  - eauto.
Qed.

Lemma stream_length_tokens_then (tokens : list string) (tail : TokenStream) :
  stream_length (tokens_then tokens tail) = length tokens + stream_length tail.
Proof.
  unfold tokens_then.
  induction tokens as [|t tokens IH]; cbn; [reflexivity | now rewrite IH].
Qed.

(** Entering the body costs one call into the provider; from there on the
    generator behaves as one suspended in the loop. *)
Lemma consume_created (env : Env) (k : nat) (self : State)
  (args : GenerateArgs) (m : Model) (fuel : nat) :
  model self = Some m ->
  consume mlx (S fuel) env k self (GCreated args) =
  let '(self', events) :=
    consume mlx (S fuel) env k self
      (GAtToken (generate_mlx mlx m (tokenizer self) (generate_kwargs args))) in
  (self', CallGenerate m (tokenizer self) (generate_kwargs args) :: events).
Proof.
  intros Hm. cbn [consume gen_next]. rewrite Hm.
  destruct (for_token_yields self
              (generate_mlx mlx m (tokenizer self) (generate_kwargs args)))
    as (v & g & Hv).
  rewrite Hv.
  destruct (consume mlx fuel env (S k) (env k self) g) as [self' events].
  reflexivity.
Qed.

(** While the flag is found set, the tokens of the provider come out one
    response each, in order. *)
Lemma consume_tokens (tokens : list string) (tail : TokenStream) (env : Env) :
  forall (k : nat) (self : State) (fuel : nat),
    (forall n, n < length tokens -> running (observed env k self n) = true) ->
    consume mlx (length tokens + fuel) env k self (GAtToken (tokens_then tokens tail)) =
    let '(self', events) :=
      consume mlx fuel env (length tokens + k)
        (observed env k self (length tokens)) (GAtToken tail) in
    (self', map (fun t => Print (token_response t)) tokens ++ events).
Proof.
  induction tokens as [|t tokens IH]; intros k self fuel Hrun.
  - cbn. now destruct (consume mlx fuel env k self (GAtToken tail)).
  - assert (H0 : running self = true) by (apply (Hrun 0); cbn; lia).
    cbn [length Nat.add consume gen_next tokens_then fold_right for_token].
    rewrite H0. cbn [negb].
    fold (tokens_then tokens tail).
    rewrite IH by (intros n Hn; apply (Hrun (S n)); cbn; lia).
    rewrite Nat.add_succ_r. cbn [observed].
    destruct (consume mlx fuel env (S (length tokens + k))
                (observed env (S k) (env k self) (length tokens)) (GAtToken tail))
      as [self' events].
    reflexivity.
Qed.

(** The three ways the loop is left. *)
Lemma consume_exhausted (env : Env) (k : nat) (self : State) (fuel : nat) :
  consume mlx (S (S fuel)) env k self (GAtToken TSEnd) =
  (env k self, [Print complete_response]).
Proof. reflexivity. Qed.

Lemma consume_break (env : Env) (k : nat) (self : State) (fuel : nat)
  (token : string) (rest : TokenStream) :
  running self = false ->
  consume mlx (S (S fuel)) env k self (GAtToken (TSToken token rest)) =
  (env k self, [Print complete_response]).
Proof. intros Hstop. cbn. rewrite Hstop. reflexivity. Qed.

Lemma consume_raise (env : Env) (k : nat) (self : State) (fuel : nat) (e : string) :
  consume mlx (S (S fuel)) env k self (GAtToken (TSRaise e)) =
  (env k self, [Print (error_response e)]).
Proof. reflexivity. Qed.

(** [resumptions] is enough: resuming more often than that changes
    neither the trace nor the daemon, so [for_response] is the whole loop. *)
Lemma consume_in_loop_enough (rest : TokenStream) (env : Env) :
  forall (k : nat) (self : State) (fuel : nat),
    2 + stream_length rest <= fuel ->
    consume mlx fuel env k self (GAtToken rest) =
    consume mlx (2 + stream_length rest) env k self (GAtToken rest).
Proof.
  induction rest as [|token rest IH|e]; intros k self fuel Hfuel;
    cbn [stream_length] in *.
  - destruct fuel as [|[|fuel]]; try lia. now rewrite !consume_exhausted.
  - destruct (running self) eqn:Hrun.
    + destruct fuel as [|fuel]; [lia|].
      cbn [Nat.add consume gen_next for_token]. rewrite Hrun. cbn [negb].
      rewrite (IH (S k) (env k self) fuel) by lia.
      reflexivity.
    + destruct fuel as [|[|fuel]]; try lia.
      cbn [Nat.add]. now rewrite !consume_break by exact Hrun.
  - destruct fuel as [|[|fuel]]; try lia. now rewrite !consume_raise.
Qed.

Lemma consume_enough (env : Env) (k : nat) (self : State) (g : Generator)
  (fuel : nat) :
  resumptions mlx self g <= fuel ->
  consume mlx fuel env k self g = consume mlx (resumptions mlx self g) env k self g.
Proof.
  destruct g as [args| |rest| | |]; cbn [resumptions]; intros Hfuel;
    try (destruct fuel as [|fuel]; [lia | reflexivity]).
  - destruct (model self) as [m|] eqn:Hm.
    + destruct fuel as [|fuel]; [lia|].
      rewrite (consume_created env k self args m fuel Hm).
      cbn [Nat.add].
      rewrite (consume_created env k self args m _ Hm).
      rewrite (consume_in_loop_enough _ env k self (S fuel)) by lia.
      reflexivity.
    + destruct fuel as [|[|fuel]]; try lia.
      cbn [consume gen_next]. rewrite Hm. reflexivity.
  - now apply consume_in_loop_enough.
Qed.

(** ** The streaming handler *)



(** A failure of the provider in mid-stream: the tokens so far, then one
    error response and no complete. *)
Lemma provider_failure_ends_with_error (env : Env) (self : State)
  (args : GenerateArgs) (m : Model) (tokens : list string) (e : string)
  (fuel : nat) :
  model self = Some m ->
  generate_mlx mlx m (tokenizer self) (generate_kwargs args)
    = tokens_then tokens (TSRaise e) ->
  (forall n, n < length tokens -> running (observed env 0 self n) = true) ->
  resumptions mlx self (GCreated args) <= fuel ->
  snd (consume mlx fuel env 0 self (GCreated args)) =
  CallGenerate m (tokenizer self) (generate_kwargs args)
    :: map (fun t => Print (token_response t)) tokens ++ [Print (error_response e)].
Proof.
  intros Hm Hgen Hrun Hfuel.
  unfold resumptions in Hfuel.
  rewrite Hm, Hgen, stream_length_tokens_then in Hfuel. cbn in Hfuel.
  destruct fuel as [|fuel]; [lia|].
  rewrite (consume_created env 0 self args m fuel Hm), Hgen.
  replace (S fuel) with (length tokens + S (S (fuel - length tokens - 1))) by lia.
  rewrite consume_tokens by exact Hrun.
  rewrite consume_raise. reflexivity.
Qed.

(** A termination signal that arrives in mid-stream, after the tokens
    [before] are out: the stream ends with the handler's shutdown line and
    the process exits with status 0; here the loop's own check of the run
    flag is never reached. *)
Lemma signal_during_generation (before : list string) (tail : TokenStream) :
  forall (self : State) (fuel : nat),
    running self = true ->
    consume_until_signal mlx (length before + fuel) (length before) self
      (GAtToken (tokens_then before tail)) =
    (set_running false self,
     map (fun t => Print (token_response t)) before ++ [Print shutdown_response],
     Some 0%Z).
Proof.
  induction before as [|t before IH]; intros self fuel Hrun.
  - reflexivity.
  - cbn [length Nat.add consume_until_signal gen_next tokens_then fold_right for_token].
    rewrite Hrun. cbn [negb]. fold (tokens_then before tail).
    now rewrite (IH self fuel Hrun).
Qed.

(** The loop that prints the responses leaves the daemon alone. *)
Lemma consume_undisturbed (fuel : nat) :
  forall (k : nat) (self : State) (g : Generator),
    fst (consume mlx fuel undisturbed k self g) = self.
Proof.
  induction fuel as [|fuel IH]; intros k self g; [reflexivity|].
  cbn [consume].
  destruct (gen_next mlx self g) as [[[v|] g'] calls]; [|reflexivity].
  specialize (IH (S k) (undisturbed k self) g').
  destruct (consume mlx fuel undisturbed (S k) (undisturbed k self) g')
    as [self' events].
  exact IH.
Qed.

(** ** The dispatcher *)

(** Brings a line that is known to be a command of some type to the branch
    of [dispatch] that handles it. *)
Ltac to_branch Hcmd :=
  let Hdec := fresh "Hdec" in
  let Hty := fresh "Hty" in
  destruct Hcmd as [Hdec Hty];
  unfold process_line, dispatch, get_default;
  rewrite Hdec, Hty;
  cbn [eq_str String.eqb Ascii.eqb Bool.eqb].

Lemma process_line_load_model (self : State) (line : string)
  (command : list (string * value)) (arg : value) :
  is_command host line command "load_model" ->
  lookup "model_path" command = Some arg ->
  process_line host mlx self line =
  let '(self', calls, result) := load_model host mlx self arg in
  (self', calls ++ [Print result], Continue).
Proof.
  intros Hcmd Harg. to_branch Hcmd.
  unfold getitem. rewrite Harg.
  now destruct (load_model host mlx self arg) as [[self' calls] result].
Qed.

(** A dict that reports a failure leaves the daemon as it was. *)
Lemma load_model_failure_keeps_state (self : State) (arg : value) :
  field (snd (load_model host mlx self arg)) "success" = Some (VBool false) ->
  fst (fst (load_model host mlx self arg)) = self.
Proof.
  unfold load_model.
  destruct (Path_expanduser host arg) as [p|e]; [|reflexivity].
  destruct (Path_exists host p) as [[|]|e]; try reflexivity.
  destruct (is_not_none (model self) && model_path_is self p); [reflexivity|].
  destruct (load mlx (path_str p)) as [[m t]|e]; [|reflexivity].
  cbn. discriminate.
Qed.

Lemma load_model_invariant (self : State) (arg : value) :
  invariant self -> invariant (fst (fst (load_model host mlx self arg))).
Proof.
  intros Hinv. unfold load_model.
  destruct (Path_expanduser host arg) as [p|e]; [|exact Hinv].
  destruct (Path_exists host p) as [[|]|e]; try exact Hinv.
  destruct (is_not_none (model self) && model_path_is self p); [exact Hinv|].
  destruct (load mlx (path_str p)) as [[m t]|e]; [|exact Hinv].
  split; reflexivity.
Qed.

(** C4: a load_model command whose path exists and which the provider can
    load is answered with success=true; the same command again, on the
    daemon the first one left, is answered with success=true and cached=true,
    makes no call into the provider and leaves the daemon as it is. *)
Theorem C4_second_load_is_cached (self : State) (line : string)
  (command : list (string * value)) (arg : value) (p : Path)
  (m : Model) (t : Tokenizer) :
  is_command host line command "load_model" ->
  lookup "model_path" command = Some arg ->
  Path_expanduser host arg = Ok p ->
  Path_exists host p = Ok true ->
  load mlx (path_str p) = Ok (m, t) ->
  exists (self1 : State) (calls1 : list Event) (result1 : value),
    process_line host mlx self line = (self1, calls1 ++ [Print result1], Continue) /\
    field result1 "success" = Some (VBool true) /\
    process_line host mlx self1 line =
      (self1, [Print (load_result host p true "Model already loaded in daemon")],
       Continue) /\
    field (load_result host p true "Model already loaded in daemon") "success"
      = Some (VBool true) /\
    field (load_result host p true "Model already loaded in daemon") "cached"
      = Some (VBool true).
Proof.
  intros Hcmd Harg Hp Hexists Hload.
  assert (Hhit : forall s : State,
             is_not_none (model s) && model_path_is s p = true ->
             load_model host mlx s arg =
             (s, [], load_result host p true "Model already loaded in daemon")).
  { intros s Hs. unfold load_model. now rewrite Hp, Hexists, Hs. }
  destruct (is_not_none (model self) && model_path_is self p) eqn:Hcache.
  - exists self, [], (load_result host p true "Model already loaded in daemon").
    rewrite (process_line_load_model self line command arg Hcmd Harg).
    rewrite (Hhit self Hcache). repeat split.
  - set (self1 := {| model := Some m; tokenizer := Some t;
                     model_path := Some p; running := running self |}).
    exists self1, [CallLoad (path_str p)],
      (load_result host p false "Model loaded successfully").
    rewrite !(process_line_load_model _ line command arg Hcmd Harg).
    assert (H1 : load_model host mlx self arg =
                 (self1, [CallLoad (path_str p)],
                  load_result host p false "Model loaded successfully")).
    { unfold load_model. now rewrite Hp, Hexists, Hcache, Hload. }
    rewrite H1, (Hhit self1).
    + repeat split.
    + cbn. unfold model_path_is, Path_eqb. cbn. apply String.eqb_refl.
Qed.

(** C5: a load_model command whose path does not exist is answered with
    success=false and type "path_error"; one on which the provider's load is
    called and raises is answered with success=false and type "load_error";
    and whatever load_model command is answered with success=false leaves
    model, tokenizer, path and run flag exactly as they were. *)
Theorem C5_failed_load_keeps_state (self : State) (line : string)
  (command : list (string * value)) (arg : value) (p : Path) :
  is_command host line command "load_model" ->
  lookup "model_path" command = Some arg ->
  Path_expanduser host arg = Ok p ->
  (Path_exists host p = Ok false ->
   process_line host mlx self line = (self, [Print (path_error p)], Continue) /\
   field (path_error p) "success" = Some (VBool false) /\
   field (path_error p) "type" = Some (VStr "path_error")) /\
  (forall e,
     Path_exists host p = Ok true ->
     is_not_none (model self) && model_path_is self p = false ->
     load mlx (path_str p) = Raise e ->
     process_line host mlx self line =
       (self, [CallLoad (path_str p); Print (load_error e)], Continue) /\
     field (load_error e) "success" = Some (VBool false) /\
     field (load_error e) "type" = Some (VStr "load_error")) /\
  (forall self' events result,
     process_line host mlx self line = (self', events ++ [Print result], Continue) ->
     field result "success" = Some (VBool false) ->
     self' = self).
Proof.
  intros Hcmd Harg Hp.
  rewrite (process_line_load_model self line command arg Hcmd Harg).
  split; [|split].
  - intros Hmissing. unfold load_model. rewrite Hp, Hmissing. repeat split.
  - intros e Hexists Hmiss Hraise. unfold load_model.
    rewrite Hp, Hexists, Hmiss, Hraise. repeat split.
  - intros self' events result Hrun Hfail.
    pose proof (load_model_failure_keeps_state self arg) as Hkeep.
    destruct (load_model host mlx self arg) as [[s calls] r].
    injection Hrun as Hs Hev. apply app_inj_tail in Hev as [_ Hr].
    injection Hr as Hr. subst. apply Hkeep. exact Hfail.
Qed.

(** C6: a generate command that arrives while no model is loaded is
    answered with exactly one line, an error response; no token and no
    complete response follows, the provider is not called, the daemon is
    unchanged and the loop goes on to the next line. *)
Theorem C6_generate_without_model (self : State) (line : string)
  (command : list (string * value)) :
  is_command host line command "generate" ->
  model self = None ->
  process_line host mlx self line =
  (self,
   [Print (error_response
             match lookup "prompt" command with
             | Some _ => "No model loaded"
             | None => "Unexpected error: 'prompt'"
             end)],
   Continue).
Proof.
  intros Hcmd Hnone. to_branch Hcmd.
  unfold getitem.
  destruct (lookup "prompt" command) as [p|]; [|reflexivity].
  unfold for_response, resumptions, generate. rewrite Hnone.
  cbn [consume gen_next]. rewrite Hnone. reflexivity.
Qed.




(** C10: a line that decodes to an object without a "type" member is
    answered with exactly one error response, which names the unknown
    command type as None; the daemon is unchanged, and the loop goes on with
    the lines that follow. *)
Theorem C10_missing_type_is_unknown_command (self : State) (line : string)
  (command : list (string * value)) (later : list string) :
  json_loads host (strip line) = Ok (VDict command) ->
  lookup "type" command = None ->
  running self = true ->
  line <> "" ->
  process_line host mlx self line =
    (self, [Print (error_response "Unknown command type: None")], Continue) /\
  loop host mlx self (line :: later) =
    (fst (loop host mlx self later),
     Print (error_response "Unknown command type: None")
       :: snd (loop host mlx self later)).
Proof.
  intros Hdec Hty Hrun Hline.
  assert (Hstep : process_line host mlx self line =
                  (self, [Print (error_response "Unknown command type: None")],
                   Continue)).
  { unfold process_line, dispatch, get_default. rewrite Hdec, Hty. reflexivity. }
  split; [exact Hstep|].
  cbn [loop]. rewrite Hrun. cbn [negb].
  apply String.eqb_neq in Hline. rewrite Hline, Hstep.
  now destruct (loop host mlx self later).
Qed.

(** ** The invariant of the daemon *)

Lemma process_line_invariant (self : State) (line : string) :
  invariant self -> invariant (fst (fst (process_line host mlx self line))).
Proof.
  intros Hinv. unfold process_line, dispatch.
  destruct (json_loads host (strip line)) as [command|e]; [|exact Hinv].
  destruct command as [| | | | | |command]; try exact Hinv.
  destruct (eq_str (get_default command "type" VNone) "load_model").
  { destruct (getitem command "model_path") as [arg|e]; [|exact Hinv].
    pose proof (load_model_invariant self arg Hinv) as Hload.
    now destruct (load_model host mlx self arg) as [[self' calls] result]. }
  destruct (eq_str (get_default command "type" VNone) "generate").
  { destruct (getitem command "prompt") as [p|e]; [|exact Hinv].
    match goal with
    | |- context [for_response mlx undisturbed self ?g] =>
        pose proof (consume_undisturbed (resumptions mlx self g) 0 self g) as Hsame;
        unfold for_response;
        destruct (consume mlx (resumptions mlx self g) undisturbed 0 self g)
          as [self' events]
    end.
    cbn in Hsame |- *. now subst. }
  destruct (eq_str (get_default command "type" VNone) "status"); [exact Hinv|].
  destruct (eq_str (get_default command "type" VNone) "shutdown"); exact Hinv.
Qed.

Lemma loop_invariant (stdin : list string) :
  forall self : State, invariant self -> invariant (fst (loop host mlx self stdin)).
Proof.
  induction stdin as [|line rest IH]; intros self Hinv; cbn [loop].
  - now destruct (negb (running self)).
  - destruct (negb (running self)); [exact Hinv|].
    destruct (String.eqb line ""); [exact Hinv|].
    pose proof (process_line_invariant self line Hinv) as Hstep.
    destruct (process_line host mlx self line) as [[self' events] [|]].
    + specialize (IH self' Hstep).
      now destruct (loop host mlx self' rest).
    + exact Hstep.
Qed.

(** C8: the daemon as [__init__] builds it has model, tokenizer and path
    all absent, and from a daemon in which model and tokenizer are both
    present or both absent and the path is present exactly when the model
    is, every operation leads to such a daemon again: load_model on each of
    its branches, a drained generation, a line of any kind with its error
    handling, the whole loop, a whole run from start, and the signal
    handler. *)
Theorem C8_invariant_preserved (self : State) :
  invariant self ->
  invariant (init Model Tokenizer) /\
  (forall arg, invariant (fst (fst (load_model host mlx self arg)))) /\
  (forall args, invariant (fst (for_response mlx undisturbed self (GCreated args)))) /\
  (forall line, invariant (fst (fst (process_line host mlx self line)))) /\
  (forall stdin, invariant (fst (loop host mlx self stdin))) /\
  (forall stdin, invariant (fst (run host mlx (init Model Tokenizer) stdin))) /\
  invariant (fst (fst (_handle_shutdown self))).
Proof.
  intros Hinv.
  assert (Hinit : invariant (init Model Tokenizer)) by (split; reflexivity).
  split; [exact Hinit|].
  split; [intros arg; exact (load_model_invariant self arg Hinv)|].
  split.
  { intros args. unfold for_response. now rewrite consume_undisturbed. }
  split; [intros line; exact (process_line_invariant self line Hinv)|].
  split; [intros stdin; exact (loop_invariant stdin self Hinv)|].
  split; [|exact Hinv].
  intros stdin. unfold run.
  pose proof (loop_invariant stdin _ Hinit) as Hrun.
  now destruct (loop host mlx (init Model Tokenizer) stdin).
Qed.

End DaemonFacts.

(** The two end-to-end scenarios the protocol is documented with. *)
Example status_before_any_load :
  AIDaemon.printed (snd (AIDaemon.run AIDaemon.Demo.host AIDaemon.Demo.mlx
                  (AIDaemon.init string string) [AIDaemon.Demo.line_status])) =
  [AIDaemon.ready_response;
   VDict [("type", VStr "status"); ("running", VBool true);
          ("model_loaded", VBool false); ("model_path", VNone)]].
Proof. vm_compute. reflexivity. Qed.

Example load_of_a_missing_path :
  AIDaemon.printed (snd (AIDaemon.run AIDaemon.Demo.host AIDaemon.Demo.mlx
                  (AIDaemon.init string string) [AIDaemon.Demo.line_load_missing])) =
  [AIDaemon.ready_response;
   VDict [("success", VBool false);
          ("error", VStr "Model path does not exist: /nonexistent");
          ("type", VStr "path_error")]].
Proof. vm_compute. reflexivity. Qed.

(** ** The daemon on the small installation *)

Section DaemonRuns.

Import AIDaemon.




(** C2 fails on the code: a generate command that sets temperature, top_p
    and repetition_penalty reaches the provider as a call with prompt,
    max_tokens and verbose only, and no call of the handler ever carries
    one of the three. *)
Theorem C2_sampling_parameters_not_passed :
  process_line Demo.host Demo.mlx Demo.loaded Demo.line_sampled =
  (Demo.loaded,
   [CallGenerate ("model:" ++ Demo.llama)%string (Some ("tokenizer:" ++ Demo.llama)%string)
      [("prompt", VStr "hi"); ("max_tokens", VInt 1024); ("verbose", VBool false)];
    Print (token_response "Hel");
    Print (token_response "lo");
    Print (token_response "!");
    Print complete_response],
   Continue) /\
  forall args : GenerateArgs,
    lookup "temperature" (generate_kwargs args) = None /\
    lookup "top_p" (generate_kwargs args) = None /\
    lookup "repetition_penalty" (generate_kwargs args) = None.
Proof.
  split; [vm_compute; reflexivity|].
  intros args. repeat split.
Qed.

Lemma C4_witness :
  exists (self1 : State string string) (calls1 : list (Event string string))
         (result1 : value),
    process_line Demo.host Demo.mlx (init string string) Demo.line_load
      = (self1, calls1 ++ [Print result1], Continue) /\
    field result1 "success" = Some (VBool true) /\
    process_line Demo.host Demo.mlx self1 Demo.line_load =
      (self1,
       [Print (load_result Demo.host (mkPath Demo.llama) true
                 "Model already loaded in daemon")],
       Continue) /\
    field (load_result Demo.host (mkPath Demo.llama) true
             "Model already loaded in daemon") "success" = Some (VBool true) /\
    field (load_result Demo.host (mkPath Demo.llama) true
             "Model already loaded in daemon") "cached" = Some (VBool true).
Proof.
  apply (C4_second_load_is_cached Demo.host Demo.mlx (init string string)
           Demo.line_load
           [("type", VStr "load_model"); ("model_path", VStr Demo.llama)]
           (VStr Demo.llama) (mkPath Demo.llama)
           ("model:" ++ Demo.llama)%string ("tokenizer:" ++ Demo.llama)%string).
  - split; vm_compute; reflexivity.
  - reflexivity.
  - reflexivity.
  - reflexivity.
  - reflexivity.
Defined.

Lemma C5_witness :
  process_line Demo.host Demo.mlx Demo.loaded Demo.line_load_missing =
    (Demo.loaded, [Print (path_error (mkPath "/nonexistent"))], Continue) /\
  process_line Demo.host Demo.mlx Demo.loaded Demo.line_load_broken =
    (Demo.loaded,
     [CallLoad "/models/broken"; Print (load_error "No safetensors found")],
     Continue).
Proof.
  split.
  - destruct (C5_failed_load_keeps_state Demo.host Demo.mlx Demo.loaded
                Demo.line_load_missing
                [("type", VStr "load_model"); ("model_path", VStr "/nonexistent")]
                (VStr "/nonexistent") (mkPath "/nonexistent"))
      as [Hmissing _].
    + split; vm_compute; reflexivity.
    + reflexivity.
    + reflexivity.
    + apply Hmissing. reflexivity.
  - destruct (C5_failed_load_keeps_state Demo.host Demo.mlx Demo.loaded
                Demo.line_load_broken
                [("type", VStr "load_model"); ("model_path", VStr "/models/broken")]
                (VStr "/models/broken") (mkPath "/models/broken"))
      as [_ [Hraises _]].
    + split; vm_compute; reflexivity.
    + reflexivity.
    + reflexivity.
    + apply (Hraises "No safetensors found"); reflexivity.
Defined.

Lemma C6_witness :
  process_line Demo.host Demo.mlx (init string string) Demo.line_generate =
  (init string string, [Print (error_response "No model loaded")], Continue).
Proof.
  apply (C6_generate_without_model Demo.host Demo.mlx (init string string)
           Demo.line_generate [("type", VStr "generate"); ("prompt", VStr "hi")]).
  - split; vm_compute; reflexivity.
  - reflexivity.
Defined.


Lemma C8_witness :
  invariant (fst (fst (process_line Demo.host Demo.mlx Demo.loaded Demo.line_load_missing))) /\
  invariant (fst (run Demo.host Demo.mlx (init string string)
                    [Demo.line_load; Demo.line_generate; Demo.line_shutdown])).
Proof.
  assert (Hinv : invariant Demo.loaded) by (split; reflexivity).
  pose proof (C8_invariant_preserved Demo.host Demo.mlx Demo.loaded Hinv)
    as (_ & _ & _ & Hline & _ & Hrun & _).
  split; [apply Hline | apply Hrun].
Defined.

Lemma C10_witness :
  process_line Demo.host Demo.mlx Demo.loaded Demo.line_untyped =
  (Demo.loaded, [Print (error_response "Unknown command type: None")], Continue).
Proof.
  apply (C10_missing_type_is_unknown_command Demo.host Demo.mlx Demo.loaded
           Demo.line_untyped [("prompt", VStr "hi")] [Demo.line_status]).
  - vm_compute. reflexivity.
  - reflexivity.
  - reflexivity.
  - discriminate.
Defined.

End DaemonRuns.

(** * Properties of the transcription script *)

Section ScriptFacts.

Import WhisperTranscribe.

Lemma main_without_argument (env : Env) :
  length (argv env) < 2 ->
  main env = {| stdout := [error_result "Usage: whisper_transcribe.py <audio_file>"];
                exit_status := 1; uncaught := None |}.
Proof.
  unfold main. destruct (argv env) as [|script [|audio_path rest]]; cbn; intros Hlen;
    (reflexivity || lia).
Qed.

Lemma main_file_not_found (env : Env) (script audio_path : string)
  (rest : list string) :
  argv env = script :: audio_path :: rest ->
  os_path_exists env audio_path = false ->
  main env = {| stdout := [error_result ("File not found: " ++ audio_path)];
                exit_status := 1; uncaught := None |}.
Proof. intros Hargv Hmissing. unfold main. now rewrite Hargv, Hmissing. Qed.

(** Once the file is found, whatever dict [transcribe_audio] returns is
    printed and the script ends with status 0, an error dict included. *)
Lemma main_after_transcribe_audio (env : Env) (script audio_path : string)
  (rest : list string) (r : value) :
  argv env = script :: audio_path :: rest ->
  os_path_exists env audio_path = true ->
  transcribe_audio env audio_path = Ok r ->
  main env = {| stdout := [r]; exit_status := 0; uncaught := None |}.
Proof.
  intros Hargv Hfound Hresult. unfold main. now rewrite Hargv, Hfound, Hresult.
Qed.

(** C9 fails on the code: with the file present and no Whisper package
    installed, or with a model that fails on the file, the script prints the
    error object and ends with status 0; with a failing mlx-whisper fallback
    it ends with status 1 and prints nothing. *)
Theorem C9_error_object_with_exit_status_zero :
  main Demo.nothing_installed =
    {| stdout := [error_result "Whisper not installed. Install with: pip install openai-whisper or pip install mlx-whisper"];
       exit_status := 0; uncaught := None |} /\
  main Demo.failing_model =
    {| stdout := [error_result "Transcription failed: Invalid data found"];
       exit_status := 0; uncaught := None |} /\
  main Demo.failing_fallback =
    {| stdout := []; exit_status := 1; uncaught := Some "Invalid data found" |}.
Proof. repeat split. Qed.

End ScriptFacts.

(** * Further properties of the daemon *)

Section DaemonBehaviour.

Import AIDaemon.

Context {Model Tokenizer : Type}.
Variable host : Host.
Variable mlx : Provider Model Tokenizer.

Local Abbreviation State := (AIDaemon.State Model Tokenizer).
Local Abbreviation Event := (AIDaemon.Event Model Tokenizer).
Local Abbreviation Env := (nat -> State -> State).

Ltac to_branch Hcmd :=
  let Hdec := fresh "Hdec" in
  let Hty := fresh "Hty" in
  destruct Hcmd as [Hdec Hty];
  unfold process_line, dispatch, get_default;
  rewrite Hdec, Hty;
  cbn [eq_str String.eqb Ascii.eqb Bool.eqb].

(** ** Reading a trace *)

Lemma printed_app (a b : list Event) : printed (a ++ b) = printed a ++ printed b.
Proof.
  induction a as [|[line|path|m t kwargs] a IH]; cbn; [reflexivity | | |];
    now rewrite IH.
Qed.

Lemma eq_str_true (v : value) (s : string) : eq_str v s = true -> v = VStr s.
Proof.
  destruct v; cbn; try discriminate.
  intros H. apply String.eqb_eq in H. now subst.
Qed.

Lemma has_type_command (line type : string) :
  has_type host line type = true <->
  exists command, is_command host line command type.
Proof.
  unfold has_type, is_command, get_default. split.
  - destruct (json_loads host (strip line)) as [[| | | | | |command]|e];
      try discriminate.
    destruct (lookup "type" command) as [v|] eqn:Hty; [|discriminate].
    intros H. apply eq_str_true in H. subst. now exists command.
  - intros (command & Hdec & Hty). rewrite Hdec, Hty. cbn. apply String.eqb_refl.
Qed.

Lemma gen_next_yield (self : State) (g : Generator) (v : value)
  (g' : Generator) (calls : list Event) :
  gen_next mlx self g = (Some v, g', calls) -> streamed v /\ printed calls = [].
Proof.
  unfold gen_next, for_token, streamed.
  destruct g as [args| |rest| | |]; try discriminate.
  - destruct (model self) as [m|].
    + destruct (generate_mlx mlx m (tokenizer self) (generate_kwargs args))
        as [|t rest|e]; [|destruct (negb (running self))|];
        intros H; injection H as <- _ <-; split; eauto.
    + intros H; injection H as <- _ <-; split; eauto.
  - destruct rest as [|t rest|e]; [|destruct (negb (running self))|];
      intros H; injection H as <- _ <-; split; eauto.
Qed.

Lemma gen_next_stop (self : State) (g g' : Generator) (calls : list Event) :
  gen_next mlx self g = (None, g', calls) -> calls = [].
Proof.
  unfold gen_next, for_token.
  destruct g as [args| |rest| | |]; try (intros H; now injection H).
  - destruct (model self) as [m|]; [|discriminate].
    destruct (generate_mlx mlx m (tokenizer self) (generate_kwargs args))
      as [|t rest|e]; [|destruct (negb (running self))|]; discriminate.
  - destruct rest as [|t rest|e]; [|destruct (negb (running self))|]; discriminate.
Qed.

Lemma consume_prints (fuel : nat) :
  forall (env : Env) (k : nat) (self : State) (g : Generator) (r : value),
    In r (printed (snd (consume mlx fuel env k self g))) -> streamed r.
Proof.
  induction fuel as [|fuel IH]; intros env k self g r; cbn [consume].
  - intros [].
  - destruct (gen_next mlx self g) as [[[v|] g'] calls] eqn:Hnext.
    + destruct (gen_next_yield _ _ _ _ _ Hnext) as [Hv Hcalls].
      specialize (IH env (S k) (env k self) g' r).
      destruct (consume mlx fuel env (S k) (env k self) g') as [self' events].
      cbn [snd] in *. rewrite printed_app, Hcalls. cbn.
      intros [<-|Hin]; [exact Hv | now apply IH].
    + rewrite (gen_next_stop _ _ _ _ Hnext). intros [].
Qed.

Lemma consume_answers (fuel : nat) (env : Env) (k : nat) (self : State)
  (args : GenerateArgs) :
  printed (snd (consume mlx (S fuel) env k self (GCreated args))) <> [].
Proof.
  cbn [consume gen_next].
  destruct (model self) as [m|].
  - destruct (for_token_yields self
                (generate_mlx mlx m (tokenizer self) (generate_kwargs args)))
      as (v & g & Hv).
    rewrite Hv.
    destruct (consume mlx fuel env (S k) (env k self) g) as [self' events].
    cbn. discriminate.
  - destruct (consume mlx fuel env (S k) (env k self) GAtNoModel) as [self' events].
    cbn. discriminate.
Qed.

(** The loop over an uncancelled stream: its tokens, then its terminal. *)
Lemma consume_stream (rest : TokenStream) :
  forall (k : nat) (self : State) (fuel : nat),
    running self = true ->
    2 + stream_length rest <= fuel ->
    consume mlx fuel undisturbed k self (GAtToken rest) =
    (self, map (fun t => Print (token_response t)) (stream_tokens rest)
             ++ [Print (stream_terminal rest)]).
Proof.
  induction rest as [|token rest IH|e]; intros k self fuel Hrun Hfuel;
    cbn [stream_length] in Hfuel.
  - destruct fuel as [|[|fuel]]; try lia. reflexivity.
  - destruct fuel as [|fuel]; [lia|].
    cbn [consume gen_next for_token]. rewrite Hrun. cbn [negb].
    rewrite (IH (S k) (undisturbed k self) fuel) by (exact Hrun || lia).
    reflexivity.
  - destruct fuel as [|[|fuel]]; try lia. reflexivity.
Qed.

(** ** Generation *)

(** A generate command on a loaded model, whatever the provider's stream
    does: one call into the provider with the prompt, the command's
    max_tokens or 1024, and verbose=False; one token response per token; and
    exactly one closing response, complete if the stream ended and error if
    it raised.  The daemon is left as it was and the loop goes on. *)
Theorem generate_streams_then_closes (self : State) (line : string)
  (command : list (string * value)) (p : value) (m : Model) :
  is_command host line command "generate" ->
  lookup "prompt" command = Some p ->
  model self = Some m ->
  running self = true ->
  let kwargs := [("prompt", p);
                 ("max_tokens", get_default command "max_tokens" (VInt 1024));
                 ("verbose", VBool false)] in
  let response := generate_mlx mlx m (tokenizer self) kwargs in
  process_line host mlx self line =
  (self,
   CallGenerate m (tokenizer self) kwargs
     :: map (fun t => Print (token_response t)) (stream_tokens response)
     ++ [Print (stream_terminal response)],
   Continue).
Proof.
  intros Hcmd Hprompt Hm Hrun kwargs response. to_branch Hcmd.
  unfold getitem. rewrite Hprompt.
  unfold for_response, generate, resumptions. rewrite Hm.
  cbn [Nat.add]. rewrite (consume_created mlx undisturbed 0 self _ m _ Hm).
  unfold generate_kwargs. cbn [prompt max_tokens].
  fold (get_default command "max_tokens" (VInt 1024)). fold kwargs. fold response.
  rewrite (consume_stream response 0 self _ Hrun) by (cbn; lia).
  reflexivity.
Qed.

(** ** Lines that cannot be dispatched *)

Lemma loop_goes_on (self self' : State) (line : string) (events : list Event)
  (later : list string) :
  running self = true ->
  line <> "" ->
  process_line host mlx self line = (self', events, Continue) ->
  loop host mlx self (line :: later) =
  (fst (loop host mlx self' later), events ++ snd (loop host mlx self' later)).
Proof.
  intros Hrun Hline Hstep. cbn [loop]. rewrite Hrun. cbn [negb].
  apply String.eqb_neq in Hline. rewrite Hline, Hstep.
  now destruct (loop host mlx self' later).
Qed.

(** A line that is not JSON is answered with one "Invalid JSON" error
    response; the daemon is unchanged and the loop reads on. *)
Theorem invalid_json_is_reported (self : State) (line e : string)
  (later : list string) :
  json_loads host (strip line) = Raise e ->
  running self = true ->
  line <> "" ->
  process_line host mlx self line =
    (self, [Print (error_response ("Invalid JSON: " ++ e))], Continue) /\
  loop host mlx self (line :: later) =
    (fst (loop host mlx self later),
     Print (error_response ("Invalid JSON: " ++ e)) :: snd (loop host mlx self later)).
Proof.
  intros Hdec Hrun Hline.
  assert (Hstep : process_line host mlx self line =
                  (self, [Print (error_response ("Invalid JSON: " ++ e))], Continue)).
  { unfold process_line, dispatch. now rewrite Hdec. }
  split; [exact Hstep|].
  now rewrite (loop_goes_on self self line _ later Hrun Hline Hstep).
Qed.

(** A line that decodes to JSON other than an object (a list, a number, a
    string, null) is answered with one "Unexpected error" response for the
    missing [get]; the daemon is unchanged and the loop reads on. *)
Theorem non_object_is_reported (self : State) (line : string) (v : value)
  (later : list string) :
  json_loads host (strip line) = Ok v ->
  (forall entries, v <> VDict entries) ->
  running self = true ->
  line <> "" ->
  let answer :=
    Print (error_response
             ("Unexpected error: '" ++ type_name v
                ++ "' object has no attribute 'get'")) in
  process_line host mlx self line = (self, [answer], Continue) /\
  loop host mlx self (line :: later) =
    (fst (loop host mlx self later), answer :: snd (loop host mlx self later)).
Proof.
  intros Hdec Hv Hrun Hline answer.
  assert (Hstep : process_line host mlx self line = (self, [answer], Continue)).
  { unfold process_line, dispatch. rewrite Hdec.
    destruct v; try reflexivity. now destruct (Hv entries). }
  split; [exact Hstep|].
  now rewrite (loop_goes_on self self line _ later Hrun Hline Hstep).
Qed.

(** A load_model command without "model_path", or a generate command
    without "prompt", is answered with one "Unexpected error" response that
    quotes the missing key; neither handler is entered, so the provider is
    not called and the daemon is unchanged, with or without a model. *)
Theorem missing_key_is_reported (self : State) (line : string)
  (command : list (string * value)) (type key : string) :
  is_command host line command type ->
  (type = "load_model" /\ key = "model_path") \/
  (type = "generate" /\ key = "prompt") ->
  lookup key command = None ->
  process_line host mlx self line =
  (self, [Print (error_response ("Unexpected error: '" ++ key ++ "'"))], Continue).
Proof.
  intros Hcmd [[-> ->]|[-> ->]] Hkey; to_branch Hcmd;
    unfold getitem; rewrite Hkey; reflexivity.
Qed.

(** ** What a line can and cannot do *)

Lemma load_model_keeps_running (self : State) (arg : value) :
  running (fst (fst (load_model host mlx self arg))) = running self.
Proof.
  unfold load_model.
  destruct (Path_expanduser host arg) as [p|e]; [|reflexivity].
  destruct (Path_exists host p) as [[|]|e]; try reflexivity.
  destruct (is_not_none (model self) && model_path_is self p); [reflexivity|].
  now destruct (load mlx (path_str p)) as [[m t]|e].
Qed.

(** What [load_model] hands to print is never a ready or shutdown line. *)
Lemma load_model_result (self : State) (arg : value) :
  printed (snd (fst (load_model host mlx self arg))) = [] /\
  snd (load_model host mlx self arg) <> ready_response /\
  snd (load_model host mlx self arg) <> shutdown_response.
Proof.
  unfold load_model.
  destruct (Path_expanduser host arg) as [p|e];
    [|repeat split; discriminate].
  destruct (Path_exists host p) as [[|]|e]; try (repeat split; discriminate).
  destruct (is_not_none (model self) && model_path_is self p);
    [repeat split; discriminate|].
  destruct (load mlx (path_str p)) as [[m t]|e]; repeat split; discriminate.
Qed.

Lemma streamed_is_no_marker (r : value) :
  streamed r -> r <> ready_response /\ r <> shutdown_response.
Proof.
  intros [[t ->]|[->|[e ->]]]; split; discriminate.
Qed.

(** The loop is left at a line exactly when the line is a shutdown
    command: no other command, and no error in a line, ends it. *)
Theorem break_only_at_shutdown (self : State) (line : string) :
  snd (process_line host mlx self line) = Break <->
  has_type host line "shutdown" = true.
Proof.
  unfold process_line, dispatch, has_type.
  destruct (json_loads host (strip line)) as [command|e];
    [|cbn; split; discriminate].
  destruct command as [| | | | | |command]; try (cbn; split; discriminate).
  destruct (eq_str (get_default command "type" VNone) "load_model") eqn:H1.
  { apply eq_str_true in H1. rewrite H1.
    destruct (getitem command "model_path") as [arg|e];
      [destruct (load_model host mlx self arg) as [[self' calls] result]|];
      cbn; split; discriminate. }
  destruct (eq_str (get_default command "type" VNone) "generate") eqn:H2.
  { apply eq_str_true in H2. rewrite H2.
    destruct (getitem command "prompt") as [p|e];
      [match goal with
       | |- context [for_response mlx undisturbed self ?g] =>
           destruct (for_response mlx undisturbed self g) as [self' events]
       end|];
      cbn; split; discriminate. }
  destruct (eq_str (get_default command "type" VNone) "status") eqn:H3.
  { apply eq_str_true in H3. rewrite H3. cbn; split; discriminate. }
  destruct (eq_str (get_default command "type" VNone) "shutdown");
    cbn; split; (reflexivity || discriminate).
Qed.

(** Only a load_model command changes model, tokenizer or path. *)
Theorem only_load_model_changes_the_model (self : State) (line : string) :
  has_type host line "load_model" = false ->
  same_model self (fst (fst (process_line host mlx self line))).
Proof.
  unfold process_line, dispatch, has_type, same_model.
  destruct (json_loads host (strip line)) as [command|e]; [|now cbn].
  destruct command as [| | | | | |command]; try (now cbn).
  intros ->.
  destruct (eq_str (get_default command "type" VNone) "generate").
  { destruct (getitem command "prompt") as [p|e]; [|now cbn].
    match goal with
    | |- context [for_response mlx undisturbed self ?g] =>
        pose proof (consume_undisturbed mlx (resumptions mlx self g) 0 self g) as Hsame;
        unfold for_response;
        destruct (consume mlx (resumptions mlx self g) undisturbed 0 self g)
          as [self' events]
    end.
    cbn in Hsame |- *. now subst. }
  destruct (eq_str (get_default command "type" VNone) "status"); [now cbn|].
  destruct (eq_str (get_default command "type" VNone) "shutdown"); now cbn.
Qed.

(** Only a shutdown command clears the run flag. *)
Theorem only_shutdown_clears_the_flag (self : State) (line : string) :
  has_type host line "shutdown" = false ->
  running (fst (fst (process_line host mlx self line))) = running self.
Proof.
  unfold process_line, dispatch, has_type.
  destruct (json_loads host (strip line)) as [command|e]; [|now cbn].
  destruct command as [| | | | | |command]; try (now cbn).
  intros Hno.
  destruct (eq_str (get_default command "type" VNone) "load_model").
  { destruct (getitem command "model_path") as [arg|e]; [|now cbn].
    pose proof (load_model_keeps_running self arg) as Hkeep.
    now destruct (load_model host mlx self arg) as [[self' calls] result]. }
  destruct (eq_str (get_default command "type" VNone) "generate").
  { destruct (getitem command "prompt") as [p|e]; [|now cbn].
    match goal with
    | |- context [for_response mlx undisturbed self ?g] =>
        pose proof (consume_undisturbed mlx (resumptions mlx self g) 0 self g) as Hsame;
        unfold for_response;
        destruct (consume mlx (resumptions mlx self g) undisturbed 0 self g)
          as [self' events]
    end.
    cbn in Hsame |- *. now subst. }
  destruct (eq_str (get_default command "type" VNone) "status"); [now cbn|].
  rewrite Hno. now cbn.
Qed.

(** The lines one pass of the loop prints: never a ready line, and a
    shutdown line only for a shutdown command. *)
Lemma process_line_prints (self : State) (line : string) (r : value) :
  In r (printed (snd (fst (process_line host mlx self line)))) ->
  r <> ready_response /\
  (r = shutdown_response -> has_type host line "shutdown" = true).
Proof.
  unfold process_line, dispatch, has_type.
  destruct (json_loads host (strip line)) as [command|e];
    [|cbn; intros [<-|[]]; split; discriminate].
  destruct command as [| | | | | |command];
    try (cbn; intros [<-|[]]; split; discriminate).
  destruct (eq_str (get_default command "type" VNone) "load_model").
  { destruct (getitem command "model_path") as [arg|e];
      [|cbn; intros [<-|[]]; split; discriminate].
    destruct (load_model_result self arg) as (Hcalls & Hready & Hdown).
    destruct (load_model host mlx self arg) as [[self' calls] result].
    cbn [fst snd] in *. rewrite printed_app, Hcalls. cbn.
    intros [<-|[]]. split; [exact Hready | intros Heq; now destruct Hdown]. }
  destruct (eq_str (get_default command "type" VNone) "generate").
  { destruct (getitem command "prompt") as [p|e];
      [|cbn; intros [<-|[]]; split; discriminate].
    match goal with
    | |- context [for_response mlx undisturbed self ?g] =>
        pose proof (consume_prints (resumptions mlx self g) undisturbed 0 self g r)
          as Hstream;
        unfold for_response;
        destruct (consume mlx (resumptions mlx self g) undisturbed 0 self g)
          as [self' events]
    end.
    cbn [fst snd] in *. intros Hin.
    destruct (streamed_is_no_marker r (Hstream Hin)) as [Hready Hdown].
    split; [exact Hready | intros Heq; now destruct Hdown]. }
  destruct (eq_str (get_default command "type" VNone) "status");
    [cbn; intros [<-|[]]; split; discriminate|].
  destruct (eq_str (get_default command "type" VNone) "shutdown");
    cbn; intros [<-|[]]; split; (reflexivity || discriminate).
Qed.

(** Every line that is read is answered: one pass of the loop prints at
    least one line, whatever the line holds. *)
Theorem every_line_is_answered (self : State) (line : string) :
  1 <= length (printed (snd (fst (process_line host mlx self line)))).
Proof.
  assert (Hsome : forall l : list value, l <> [] -> 1 <= length l)
    by (intros [|r l] Hl; [now destruct Hl | cbn; lia]).
  apply Hsome.
  unfold process_line, dispatch.
  destruct (json_loads host (strip line)) as [command|e]; [|cbn; discriminate].
  destruct command as [| | | | | |command]; try (cbn; discriminate).
  destruct (eq_str (get_default command "type" VNone) "load_model").
  { destruct (getitem command "model_path") as [arg|e]; [|cbn; discriminate].
    destruct (load_model host mlx self arg) as [[self' calls] result].
    cbn [fst snd]. rewrite printed_app. cbn.
    intros H. now apply app_eq_nil in H as [_ H]. }
  destruct (eq_str (get_default command "type" VNone) "generate").
  { destruct (getitem command "prompt") as [p|e]; [|cbn; discriminate].
    unfold for_response, generate.
    match goal with
    | |- context [consume mlx (resumptions mlx self (GCreated ?a))] =>
        assert (Hfuel : exists fuel, resumptions mlx self (GCreated a) = S fuel)
          by (cbn; destruct (model self); eauto);
        destruct Hfuel as [fuel ->];
        pose proof (consume_answers fuel undisturbed 0 self a) as Hans;
        destruct (consume mlx (S fuel) undisturbed 0 self (GCreated a))
          as [self' events]
    end.
    exact Hans. }
  destruct (eq_str (get_default command "type" VNone) "status");
    [cbn; discriminate|].
  destruct (eq_str (get_default command "type" VNone) "shutdown");
    cbn; discriminate.
Qed.

(** A line that is not a generate command is answered with exactly one
    line, whether it is a load_model, status, shutdown or unknown command,
    lacks a key, or cannot be decoded. *)
Theorem one_answer_unless_generate (self : State) (line : string) :
  has_type host line "generate" = false ->
  length (printed (snd (fst (process_line host mlx self line)))) = 1.
Proof.
  unfold process_line, dispatch, has_type.
  destruct (json_loads host (strip line)) as [command|e]; [|reflexivity].
  destruct command as [| | | | | |command]; try reflexivity.
  intros Hno.
  destruct (eq_str (get_default command "type" VNone) "load_model").
  { destruct (getitem command "model_path") as [arg|e]; [|reflexivity].
    destruct (load_model_result self arg) as (Hcalls & _).
    destruct (load_model host mlx self arg) as [[self' calls] result].
    cbn [fst snd] in *. now rewrite printed_app, Hcalls. }
  rewrite Hno.
  destruct (eq_str (get_default command "type" VNone) "status"); [reflexivity|].
  destruct (eq_str (get_default command "type" VNone) "shutdown"); reflexivity.
Qed.

(** ** Whole runs *)

(** On an input without a shutdown command the loop ends, at the end of the
    input, with the run flag as it found it and without printing a shutdown
    response. *)
Theorem no_shutdown_without_command (stdin : list string) :
  forall self : State,
    (forall line, In line stdin -> has_type host line "shutdown" = false) ->
    running (fst (loop host mlx self stdin)) = running self /\
    ~ In shutdown_response (printed (snd (loop host mlx self stdin))).
Proof.
  induction stdin as [|line rest IH]; intros self Hno; cbn [loop].
  - destruct (negb (running self)); split; (reflexivity || intros []).
  - destruct (negb (running self)); [split; (reflexivity || intros [])|].
    destruct (String.eqb line ""); [split; (reflexivity || intros [])|].
    assert (Hline : has_type host line "shutdown" = false)
      by (apply Hno; now left).
    pose proof (only_shutdown_clears_the_flag self line Hline) as Hflag.
    pose proof (process_line_prints self line shutdown_response) as Hprints.
    pose proof (break_only_at_shutdown self line) as Hbreak.
    destruct (process_line host mlx self line) as [[self' events] [|]];
      cbn [fst snd] in *.
    + specialize (IH self' (fun l Hl => Hno l (or_intror Hl))).
      destruct (loop host mlx self' rest) as [self'' events'].
      cbn [fst snd] in *. destruct IH as [IHflag IHprints].
      split; [congruence|].
      rewrite printed_app. intros Hin. apply in_app_or in Hin as [Hin|Hin].
      * destruct (Hprints Hin) as [_ Hdown]. specialize (Hdown eq_refl). congruence.
      * now apply IHprints.
    + destruct Hbreak as [Hbreak _]. specialize (Hbreak eq_refl). congruence.
Qed.

Lemma loop_never_ready (stdin : list string) :
  forall self : State,
    ~ In ready_response (printed (snd (loop host mlx self stdin))).
Proof.
  induction stdin as [|line rest IH]; intros self; cbn [loop].
  - destruct (negb (running self)); intros [].
  - destruct (negb (running self)); [intros []|].
    destruct (String.eqb line ""); [intros []|].
    pose proof (process_line_prints self line ready_response) as Hprints.
    destruct (process_line host mlx self line) as [[self' events] [|]];
      cbn [fst snd] in *.
    + specialize (IH self').
      destruct (loop host mlx self' rest) as [self'' events'].
      cbn [fst snd] in *. rewrite printed_app. intros Hin.
      apply in_app_or in Hin as [Hin|Hin]; [|now apply IH].
      destruct (Hprints Hin) as [Hready _]. now apply Hready.
    + intros Hin. destruct (Hprints Hin) as [Hready _]. now apply Hready.
Qed.

(** A run prints the ready response first and never again, whatever the
    input is. *)
Theorem ready_once_and_first (self : State) (stdin : list string) :
  exists rest : list value,
    printed (snd (run host mlx self stdin)) = ready_response :: rest /\
    ~ In ready_response rest.
Proof.
  unfold run.
  pose proof (loop_never_ready stdin self) as Hnever.
  destruct (loop host mlx self stdin) as [self' events].
  exists (printed events). now split.
Qed.

(** ** Loading and the cache *)

(** [load_model] calls the provider at most once, and only with the string
    form of a path that exists and is not the one already loaded. *)
Theorem provider_load_only_on_a_miss (self : State) (arg : value) (path : string) :
  In (CallLoad path) (snd (fst (load_model host mlx self arg))) ->
  exists p : Path,
    Path_expanduser host arg = Ok p /\
    Path_exists host p = Ok true /\
    is_not_none (model self) && model_path_is self p = false /\
    path = path_str p /\
    snd (fst (load_model host mlx self arg)) = [CallLoad path].
Proof.
  unfold load_model.
  destruct (Path_expanduser host arg) as [p|e] eqn:Hp; [|intros []].
  destruct (Path_exists host p) as [[|]|e] eqn:Hexists; try (intros []).
  destruct (is_not_none (model self) && model_path_is self p) eqn:Hhit;
    [intros []|].
  destruct (load mlx (path_str p)) as [[m t]|e]; cbn;
    intros [Heq|[]]; injection Heq as <-; exists p; repeat split; assumption.
Qed.

(** After a load_model command that succeeds, a status command reports
    model_loaded=true and the path that was loaded, and changes nothing. *)
Theorem status_reports_the_loaded_model (self : State)
  (load_line status_line : string)
  (command status_command : list (string * value)) (arg : value) (p : Path)
  (m : Model) (t : Tokenizer) :
  is_command host load_line command "load_model" ->
  lookup "model_path" command = Some arg ->
  Path_expanduser host arg = Ok p ->
  Path_exists host p = Ok true ->
  load mlx (path_str p) = Ok (m, t) ->
  is_command host status_line status_command "status" ->
  let loaded := fst (fst (process_line host mlx self load_line)) in
  process_line host mlx loaded status_line =
  (loaded,
   [Print (VDict [("type", VStr "status");
                  ("running", VBool true);
                  ("model_loaded", VBool true);
                  ("model_path", VStr (path_str p))])],
   Continue).
Proof.
  intros Hcmd Harg Hp Hexists Hload Hstatus loaded. subst loaded.
  rewrite (process_line_load_model host mlx self load_line command arg Hcmd Harg).
  unfold load_model. rewrite Hp, Hexists.
  destruct (is_not_none (model self) && model_path_is self p) eqn:Hhit.
  - apply andb_prop in Hhit as [Hmodel Hpath].
    cbn [fst]. to_branch Hstatus. unfold status_response.
    unfold model_path_is in Hpath. rewrite Hmodel.
    destruct (model_path self) as [q|]; [|discriminate].
    apply String.eqb_eq in Hpath. now rewrite Hpath.
  - rewrite Hload. cbn [fst]. to_branch Hstatus. reflexivity.
Qed.

(** The daemon keeps one model: with A loaded, loading B replaces it, and
    loading A again is no cache hit but a new call into the provider. *)
Theorem second_model_evicts_the_first (self : State) (a b : value)
  (pa pb : Path) (ma mb : Model) (ta tb : Tokenizer) :
  Path_expanduser host a = Ok pa ->
  Path_expanduser host b = Ok pb ->
  Path_exists host pa = Ok true ->
  Path_exists host pb = Ok true ->
  path_str pa <> path_str pb ->
  load mlx (path_str pa) = Ok (ma, ta) ->
  load mlx (path_str pb) = Ok (mb, tb) ->
  let with_a := fst (fst (load_model host mlx self a)) in
  let with_b := fst (fst (load_model host mlx with_a b)) in
  with_b = {| model := Some mb; tokenizer := Some tb;
              model_path := Some pb; running := running self |} /\
  load_model host mlx with_b a =
  ({| model := Some ma; tokenizer := Some ta;
      model_path := Some pa; running := running self |},
   [CallLoad (path_str pa)],
   load_result host pa false "Model loaded successfully").
Proof.
  intros Ha Hb Hea Heb Hdiff Hla Hlb with_a with_b.
  assert (Hab : String.eqb (path_str pa) (path_str pb) = false)
    by now apply String.eqb_neq.
  assert (Hba : String.eqb (path_str pb) (path_str pa) = false)
    by (apply String.eqb_neq; congruence).
  assert (Hwith_a : running with_a = running self /\
                    model_path_is with_a pb = false).
  { subst with_a. unfold load_model. rewrite Ha, Hea.
    destruct (is_not_none (model self) && model_path_is self pa) eqn:Hhit.
    - apply andb_prop in Hhit as [_ Hpath]. cbn [fst]. split; [reflexivity|].
      unfold model_path_is, Path_eqb in *.
      destruct (model_path self) as [q|]; [|reflexivity].
      apply String.eqb_eq in Hpath. now rewrite Hpath.
    - rewrite Hla. cbn. split; [reflexivity|]. exact Hab. }
  destruct Hwith_a as [Hrun Hmiss].
  assert (Hwith_b : with_b = {| model := Some mb; tokenizer := Some tb;
                                model_path := Some pb; running := running self |}).
  { subst with_b. unfold load_model at 1. rewrite Hb, Heb, Hmiss, andb_false_r, Hlb.
    cbn [fst]. now rewrite Hrun. }
  split; [exact Hwith_b|].
  rewrite Hwith_b. unfold load_model. rewrite Ha, Hea.
  unfold model_path_is, Path_eqb. cbn [model model_path is_not_none andb running].
  now rewrite Hba, Hla.
Qed.

End DaemonBehaviour.

(** * Further properties of the transcription script *)

Section ScriptBehaviour.

Import WhisperTranscribe.

Lemma bind_ok {A B : Type} (r : result A) (k : A -> result B) (b : B) :
  Py.bind r k = Ok b -> exists a, r = Ok a /\ k a = Ok b.
Proof. destruct r as [a|e]; cbn; [eauto | discriminate]. Qed.





(** With openai-whisper installed [transcribe_audio] never raises: a model
    that fails to load, a transcription that fails and a result of the wrong
    shape all come back as a dict. *)
Lemma transcribe_audio_returns (env : Env) (audio_path : string)
  (whisper_load_model : string -> result WhisperModel) :
  import_whisper env = Some whisper_load_model ->
  exists r, transcribe_audio env audio_path = Ok r.
Proof.
  intros Himport. unfold transcribe_audio. rewrite Himport.
  destruct (whisper_load_model _) as [m|e]; [|eauto].
  destruct (transcribe_with m audio_path) as [r|e]; eauto.
Qed.

(** With openai-whisper installed and the file in place, the script prints
    exactly one object and ends with status 0, whatever Whisper does. *)
Theorem one_object_when_whisper_is_installed (env : Env)
  (script audio_path : string) (rest : list string)
  (whisper_load_model : string -> result WhisperModel) :
  argv env = script :: audio_path :: rest ->
  os_path_exists env audio_path = true ->
  import_whisper env = Some whisper_load_model ->
  exists r,
    transcribe_audio env audio_path = Ok r /\
    main env = {| stdout := [r]; exit_status := 0; uncaught := None |}.
Proof.
  intros Hargv Hfound Himport.
  destruct (transcribe_audio_returns env audio_path _ Himport) as [r Hr].
  exists r. split; [exact Hr|].
  unfold main. now rewrite Hargv, Hfound, Hr.
Qed.

(** Every dict [transcribe_audio] returns has one of two shapes: an error
    object with "error", empty text, no segments and language "en", or an
    object with exactly "text", "segments" and "language". *)
Theorem transcribe_audio_shape (env : Env) (audio_path : string) (r : value) :
  transcribe_audio env audio_path = Ok r ->
  (exists e, r = error_result e) \/
  (exists text segments language,
      r = VDict [("text", text); ("segments", segments); ("language", language)]).
Proof.
  unfold transcribe_audio.
  destruct (import_whisper env) as [whisper_load_model|].
  - destruct (whisper_load_model _) as [m|e];
      [|intros H; injection H as <-; eauto].
    destruct (transcribe_with m audio_path) as [r'|e] eqn:Hwith;
      [|intros H; injection H as <-; eauto].
    intros H. injection H as <-. right.
    unfold transcribe_with in Hwith.
    apply bind_ok in Hwith as (r0 & _ & H).
    apply bind_ok in H as (raw & _ & H).
    apply bind_ok in H as (items & _ & H).
    apply bind_ok in H as (segments & _ & H).
    apply bind_ok in H as (text & _ & H).
    apply bind_ok in H as (text' & _ & H).
    apply bind_ok in H as (language & _ & H).
    injection H as <-. eauto.
  - destruct (import_mlx_whisper env) as [mlx_transcribe|];
      [|intros H; injection H as <-; eauto].
    destruct (mlx_transcribe audio_path) as [r0| |e];
      [|intros H; injection H as <-; eauto|discriminate].
    intros H. right.
    apply bind_ok in H as (text & _ & H).
    apply bind_ok in H as (segments & _ & H).
    apply bind_ok in H as (language & _ & H).
    injection H as <-. eauto.
Qed.



End ScriptBehaviour.

(** * The further properties on the small installations *)

Section MoreDaemonRuns.

Import AIDaemon.

Lemma provider_failure_witness :
  snd (consume Demo.mlx_failing 3 undisturbed 0 Demo.loaded (GCreated Demo.args)) =
  [CallGenerate ("model:" ++ Demo.llama)%string (Some ("tokenizer:" ++ Demo.llama)%string)
     (generate_kwargs Demo.args);
   Print (token_response "Hel");
   Print (error_response "out of memory")].
Proof.
  apply (provider_failure_ends_with_error Demo.mlx_failing undisturbed Demo.loaded
           Demo.args ("model:" ++ Demo.llama)%string ["Hel"] "out of memory" 3).
  - reflexivity.
  - reflexivity.
  - intros [|n] Hn; [reflexivity | cbn in Hn; lia].
  - cbn. lia.
Defined.

Lemma signal_witness :
  consume_until_signal Demo.mlx 1 1 Demo.loaded
    (GAtToken (tokens_then ["Hel"] (TSToken "lo" (TSToken "!" TSEnd)))) =
  (set_running false Demo.loaded,
   [Print (token_response "Hel"); Print shutdown_response],
   Some 0%Z).
Proof.
  apply (signal_during_generation Demo.mlx ["Hel"] (TSToken "lo" (TSToken "!" TSEnd))
           Demo.loaded 0).
  reflexivity.
Defined.

Lemma generate_streams_witness :
  process_line Demo.host Demo.mlx_failing Demo.loaded Demo.line_generate =
  (Demo.loaded,
   [CallGenerate ("model:" ++ Demo.llama)%string (Some ("tokenizer:" ++ Demo.llama)%string)
      [("prompt", VStr "hi"); ("max_tokens", VInt 1024); ("verbose", VBool false)];
    Print (token_response "Hel");
    Print (error_response "out of memory")],
   Continue).
Proof.
  apply (generate_streams_then_closes Demo.host Demo.mlx_failing Demo.loaded
           Demo.line_generate [("type", VStr "generate"); ("prompt", VStr "hi")]
           (VStr "hi") ("model:" ++ Demo.llama)%string).
  - split; vm_compute; reflexivity.
  - reflexivity.
  - reflexivity.
  - reflexivity.
Defined.

Lemma invalid_json_witness :
  process_line Demo.host Demo.mlx Demo.loaded Demo.line_garbage =
  (Demo.loaded,
   [Print (error_response "Invalid JSON: Expecting value: line 1 column 1 (char 0)")],
   Continue).
Proof.
  apply (invalid_json_is_reported Demo.host Demo.mlx Demo.loaded Demo.line_garbage
           "Expecting value: line 1 column 1 (char 0)" [Demo.line_status]).
  - vm_compute. reflexivity.
  - reflexivity.
  - discriminate.
Defined.

Lemma non_object_witness :
  process_line Demo.host_wide Demo.mlx Demo.loaded Demo.line_array =
  (Demo.loaded,
   [Print (error_response "Unexpected error: 'list' object has no attribute 'get'")],
   Continue).
Proof.
  apply (non_object_is_reported Demo.host_wide Demo.mlx Demo.loaded Demo.line_array
           (VList [VInt 1; VInt 2]) [Demo.line_status]).
  - vm_compute. reflexivity.
  - discriminate.
  - reflexivity.
  - discriminate.
Defined.

Lemma missing_key_witness :
  process_line Demo.host_wide Demo.mlx Demo.loaded Demo.line_generate_no_prompt =
  (Demo.loaded, [Print (error_response "Unexpected error: 'prompt'")], Continue).
Proof.
  apply (missing_key_is_reported Demo.host_wide Demo.mlx Demo.loaded
           Demo.line_generate_no_prompt [("type", VStr "generate")]
           "generate" "prompt").
  - split; vm_compute; reflexivity.
  - right. now split.
  - reflexivity.
Defined.

Lemma only_load_model_witness :
  same_model Demo.loaded
    (fst (fst (process_line Demo.host Demo.mlx Demo.loaded Demo.line_generate))).
Proof.
  apply (only_load_model_changes_the_model Demo.host Demo.mlx Demo.loaded
           Demo.line_generate).
  vm_compute. reflexivity.
Defined.

Lemma only_shutdown_witness :
  running (fst (fst (process_line Demo.host Demo.mlx (init string string)
                       Demo.line_load))) = true.
Proof.
  apply (only_shutdown_clears_the_flag Demo.host Demo.mlx (init string string)
           Demo.line_load).
  vm_compute. reflexivity.
Defined.

Lemma one_answer_witness :
  length (printed (snd (fst (process_line Demo.host_wide Demo.mlx Demo.loaded
                               Demo.line_load_no_path)))) = 1.
Proof.
  apply (one_answer_unless_generate Demo.host_wide Demo.mlx Demo.loaded
           Demo.line_load_no_path).
  vm_compute. reflexivity.
Defined.

Lemma no_shutdown_witness :
  running (fst (loop Demo.host Demo.mlx Demo.loaded
                  [Demo.line_status; Demo.line_generate])) = true /\
  ~ In shutdown_response
       (printed (snd (loop Demo.host Demo.mlx Demo.loaded
                        [Demo.line_status; Demo.line_generate]))).
Proof.
  apply (no_shutdown_without_command Demo.host Demo.mlx
           [Demo.line_status; Demo.line_generate] Demo.loaded).
  intros line [<-|[<-|[]]]; vm_compute; reflexivity.
Defined.

Lemma provider_load_witness :
  exists p : Path,
    Path_expanduser Demo.host (VStr Demo.llama) = Ok p /\
    Path_exists Demo.host p = Ok true /\
    is_not_none (model (init string string))
      && model_path_is (init string string) p = false /\
    Demo.llama = path_str p /\
    snd (fst (load_model Demo.host Demo.mlx (init string string) (VStr Demo.llama)))
      = [CallLoad Demo.llama].
Proof.
  apply (provider_load_only_on_a_miss Demo.host Demo.mlx (init string string)
           (VStr Demo.llama) Demo.llama).
  left. reflexivity.
Defined.

Lemma status_reports_witness :
  process_line Demo.host Demo.mlx
    (fst (fst (process_line Demo.host Demo.mlx (init string string) Demo.line_load)))
    Demo.line_status =
  (fst (fst (process_line Demo.host Demo.mlx (init string string) Demo.line_load)),
   [Print (VDict [("type", VStr "status");
                  ("running", VBool true);
                  ("model_loaded", VBool true);
                  ("model_path", VStr Demo.llama)])],
   Continue).
Proof.
  apply (status_reports_the_loaded_model Demo.host Demo.mlx (init string string)
           Demo.line_load Demo.line_status
           [("type", VStr "load_model"); ("model_path", VStr Demo.llama)]
           [("type", VStr "status")]
           (VStr Demo.llama) (mkPath Demo.llama)
           ("model:" ++ Demo.llama)%string ("tokenizer:" ++ Demo.llama)%string).
  - split; vm_compute; reflexivity.
  - reflexivity.
  - reflexivity.
  - reflexivity.
  - reflexivity.
  - split; vm_compute; reflexivity.
Defined.

Lemma second_model_witness :
  let with_a :=
    fst (fst (load_model Demo.host_wide Demo.mlx_two (init string string)
                (VStr Demo.llama))) in
  let with_b :=
    fst (fst (load_model Demo.host_wide Demo.mlx_two with_a (VStr Demo.mistral))) in
  with_b = {| model := Some ("model:" ++ Demo.mistral)%string;
              tokenizer := Some ("tokenizer:" ++ Demo.mistral)%string;
              model_path := Some (mkPath Demo.mistral);
              running := true |} /\
  load_model Demo.host_wide Demo.mlx_two with_b (VStr Demo.llama) =
  ({| model := Some ("model:" ++ Demo.llama)%string;
      tokenizer := Some ("tokenizer:" ++ Demo.llama)%string;
      model_path := Some (mkPath Demo.llama);
      running := true |},
   [CallLoad Demo.llama],
   load_result Demo.host_wide (mkPath Demo.llama) false "Model loaded successfully").
Proof.
  apply (second_model_evicts_the_first Demo.host_wide Demo.mlx_two
           (init string string) (VStr Demo.llama) (VStr Demo.mistral)
           (mkPath Demo.llama) (mkPath Demo.mistral)
           ("model:" ++ Demo.llama)%string ("model:" ++ Demo.mistral)%string
           ("tokenizer:" ++ Demo.llama)%string ("tokenizer:" ++ Demo.mistral)%string).
  - reflexivity.
  - reflexivity.
  - reflexivity.
  - reflexivity.
  - discriminate.
  - reflexivity.
  - reflexivity.
Defined.

End MoreDaemonRuns.

Section MoreScriptRuns.

Import WhisperTranscribe.

(** What the script prints for the working installation. *)
Example transcript_of_the_meeting :
  main Demo.installed =
  {| stdout :=
       [VDict [("text", VStr "Hello there. Welcome.");
               ("segments",
                VList [VDict [("text", VStr "Hello there.");
                              ("start", VFloat (0 # 1)); ("end", VFloat (3 # 2));
                              ("confidence", VFloat (1 # 50))];
                       VDict [("text", VStr "Welcome.");
                              ("start", VFloat (3 # 2)); ("end", VFloat (5 # 2));
                              ("confidence", VInt 0)]]);
               ("language", VStr "en")]];
     exit_status := 0;
     uncaught := None |}.
Proof. vm_compute. reflexivity. Qed.

Lemma main_without_argument_witness :
  main Demo.no_argument =
  {| stdout := [error_result "Usage: whisper_transcribe.py <audio_file>"];
     exit_status := 1; uncaught := None |}.
Proof.
  apply (main_without_argument Demo.no_argument). cbn. lia.
Defined.

Lemma main_file_not_found_witness :
  main Demo.missing_file =
  {| stdout := [error_result "File not found: meeting.wav"];
     exit_status := 1; uncaught := None |}.
Proof.
  apply (main_file_not_found Demo.missing_file "whisper_transcribe.py"
           "meeting.wav" []); reflexivity.
Defined.


Lemma one_object_witness :
  exists r,
    transcribe_audio Demo.failing_model "meeting.wav" = Ok r /\
    main Demo.failing_model =
      {| stdout := [r]; exit_status := 0; uncaught := None |}.
Proof.
  apply (one_object_when_whisper_is_installed Demo.failing_model
           "whisper_transcribe.py" "meeting.wav" []
           (fun _ => Ok {| transcribe := fun _ _ => Raise "Invalid data found" |}));
    reflexivity.
Defined.

Lemma transcribe_audio_shape_witness :
  (exists e,
      error_result "Transcription failed: Invalid data found" = error_result e) \/
  (exists text segments language,
      error_result "Transcription failed: Invalid data found" =
      VDict [("text", text); ("segments", segments); ("language", language)]).
Proof.
  apply (transcribe_audio_shape Demo.failing_model "meeting.wav"
           (error_result "Transcription failed: Invalid data found")).
  reflexivity.
Defined.


End MoreScriptRuns.
